(** * unimol_tools: pre-training configuration, predictor interface, training driver

    A shallow embedding of
      - [unimol_tools/pretrain/pretrain_config.py]  (module [PretrainCfg]),
      - [unimol_tools/predictor.py]                 (module [Predictor]),
      - [unimol_tools/train.py]                     (module [Train]).

    Python values are modelled by [Py.PyVal]; a raised exception by
    [Py.Raise]; calls into collaborators that live outside these files
    (DataHub, Trainer, NNModel, the YAML handler, joblib, pandas, torch) are
    the fields of the classes [ReprEnv], [TrainEnv] and [TrainCalls]. *)

From Stdlib Require Import ZArith String Floats.
From stdpp Require Import base option list gmap strings pretty.

Set Warnings "-inexact-float,-register-all".
Local Open Scope string_scope.

(** ** Python values, exceptions and a few builtins *)
Module Py.

(** The builtin values a configuration entry or a call argument can hold.
    A dict is keyed by strings, the only keys the modelled code looks up. *)
Inductive PyVal : Type :=
| PyNone
| PyBool (b : bool)
| PyInt (z : Z)
| PyFloat (f : float)
| PyStr (s : string)
| PyList (l : list PyVal)
| PyDict (d : gmap string PyVal).

(** [bool(v)]: the truth value Python gives to a builtin value. *)
Definition truthy (v : PyVal) : bool :=
  match v with
  | PyNone => false
  | PyBool b => b
  | PyInt z => negb (z =? 0)%Z
  | PyFloat f => negb (PrimFloat.eqb f 0%float)
  | PyStr s => negb (String.eqb s "")
  | PyList l => match l with [] => false | _ :: _ => true end
  | PyDict d => negb (bool_decide (dom d = ∅))
  end.

(** [a or b]: the first operand when it is truthy, the second otherwise. *)
Definition py_or (a b : PyVal) : PyVal := if truthy a then a else b.

(** [v == s] for a str literal [s]: only an equal str compares equal. *)
Definition py_eq_str (v : PyVal) (s : string) : bool :=
  match v with
  | PyStr t => String.eqb t s
  | _ => false
  end.

(** [v in [s1, ..., sn]] for a list literal of str literals. *)
Definition py_in_strs (v : PyVal) (l : list string) : bool :=
  existsb (py_eq_str v) l.

(** [not p] for an [Optional[str]] attribute: None and '' are falsy. *)
Definition truthy_opt_str (p : option string) : bool :=
  match p with
  | None => false
  | Some s => negb (String.eqb s "")
  end.

(** [s.endswith(suffix)] *)
Definition endswith (s suffix : string) : bool :=
  let n := String.length s in
  let m := String.length suffix in
  if (m <=? n)%nat then String.eqb (substring (n - m) m s) suffix else false.

(** [l[i]] on a list (or the first axis of an array): a negative index counts
    from the end, an index out of range raises IndexError ([None] here). *)
Definition py_index {A : Type} (l : list A) (i : Z) : option A :=
  let n := Z.of_nat (length l) in
  if (0 <=? i)%Z then l !! Z.to_nat i
  else if (- n <=? i)%Z then l !! Z.to_nat (n + i)
  else None.

(** Exceptions: the ones the modelled code raises itself, and [Collaborator]
    for whatever a collaborator outside these files raises. *)
Inductive exn : Type :=
| ValueError (msg : string)
| AssertionError
| IndexError
| TypeError
| KeyError (key : string)
| AttributeError (name : string)
| Collaborator (what : string).

Inductive result (A : Type) : Type :=
| Ok (a : A)
| Raise (e : exn).
Arguments Ok {A} a.
Arguments Raise {A} e.

#[export] Instance result_ret : MRet result := fun A a => Ok a.
#[export] Instance result_bind : MBind result := fun A B f r =>
  match r with
  | Ok a => f a
  | Raise e => Raise e
  end.

(** [assert b] *)
Definition py_assert (b : bool) : result unit :=
  if b then Ok tt else Raise AssertionError.

(** [os.path.join(a, b)] for a relative second component without a leading
    slash; a [None] first component raises TypeError. *)
Definition os_path_join (a : option string) (b : string) : result string :=
  match a with
  | None => Raise TypeError
  | Some a =>
      if String.eqb a "" then Ok b
      else if endswith a "/" then Ok (a ++ b)
      else Ok (a ++ "/" ++ b)
  end.

End Py.
Import Py.

(** ** pretrain/pretrain_config.py *)
Module PretrainCfg.

Record DatasetConfig : Type := {
  train_lmdb : option string;
  train_path : option string;
  valid_path : option string;
  data_type : string;
  smiles_column : string;
  valid_lmdb : option string;
  dict_path : option string;
  remove_hydrogen : bool;
  max_atoms : Z;
  noise_type : string;
  noise : float;
  mask_prob : float;
  leave_unmasked_prob : float;
  random_token_prob : float;
  unimol_style : bool;
  num_conformers : Z
}.

Record ModelConfig : Type := {
  model_name : string;
  encoder_layers : Z;
  encoder_embed_dim : Z;
  encoder_ffn_embed_dim : Z;
  encoder_attention_heads : Z;
  dropout : float;
  emb_dropout : float;
  attention_dropout : float;
  activation_dropout : float;
  pooler_dropout : float;
  max_seq_len : Z;
  activation_fn : string;
  pooler_activation_fn : string;
  post_ln : bool;
  masked_token_loss : float;
  masked_coord_loss : float;
  masked_dist_loss : float;
  x_norm_loss : float;
  delta_pair_repr_norm_loss : float
}.

Record TrainingConfig : Type := {
  batch_size : Z;
  lr : float;
  weight_decay : float;
  epochs : Z;
  save_every_n_epoch : Z;
  use_amp : bool;
  local_rank : Z;
  seed : Z;
  resume : option string
}.

Record PretrainConfig : Type := {
  dataset : DatasetConfig;
  model : ModelConfig;
  training : TrainingConfig
}.

(** The dataclass defaults, with the fields a run usually overrides as
    arguments. *)
Definition DatasetConfig_default (lmdb path : option string) (kind : string)
  : DatasetConfig :=
  {| train_lmdb := lmdb; train_path := path; valid_path := None;
     data_type := kind; smiles_column := "smi"; valid_lmdb := None;
     dict_path := None; remove_hydrogen := false; max_atoms := 256;
     noise_type := "trunc_normal"; noise := 0.1%float;
     mask_prob := 0.15%float; leave_unmasked_prob := 0.1%float;
     random_token_prob := 0.1%float; unimol_style := false;
     num_conformers := 10 |}.

Definition ModelConfig_default (layers : Z) : ModelConfig :=
  {| model_name := "UniMol"; encoder_layers := layers;
     encoder_embed_dim := 512; encoder_ffn_embed_dim := 2048;
     encoder_attention_heads := 64; dropout := 0.1%float;
     emb_dropout := 0.1%float; attention_dropout := 0.1%float;
     activation_dropout := 0%float; pooler_dropout := 0%float;
     max_seq_len := 512; activation_fn := "gelu";
     pooler_activation_fn := "tanh"; post_ln := false;
     masked_token_loss := 1%float; masked_coord_loss := 5%float;
     masked_dist_loss := 10%float; x_norm_loss := 0.01%float;
     delta_pair_repr_norm_loss := 0.01%float |}.

Definition TrainingConfig_default (bs : Z) (rate : float) (n_epochs : Z)
  : TrainingConfig :=
  {| batch_size := bs; lr := rate; weight_decay := 0.01%float;
     epochs := n_epochs; save_every_n_epoch := 1; use_amp := true;
     local_rank := 0; seed := 42; resume := None |}.

Definition msg_train_lmdb : string :=
  "train_lmdb must be specified when data_type is 'lmdb'.".
Definition msg_train_path : string :=
  "train_path must be specified when data_type is not 'lmdb'.".
Definition msg_encoder_layers : string :=
  "encoder_layers must be a positive integer.".
Definition msg_batch_size : string :=
  "batch_size must be a positive integer.".
Definition msg_lr : string :=
  "Learning rate must be a positive value.".

(** [PretrainConfig.validate]: the first failing test raises. *)
Definition validate (self : PretrainConfig) : result unit :=
  (if String.eqb (data_type (dataset self)) "lmdb" then
     if negb (truthy_opt_str (train_lmdb (dataset self)))
     then Raise (ValueError msg_train_lmdb) else Ok tt
   else
     if negb (truthy_opt_str (train_path (dataset self)))
     then Raise (ValueError msg_train_path) else Ok tt) ≫= fun _ =>
  (if (encoder_layers (model self) <=? 0)%Z
   then Raise (ValueError msg_encoder_layers) else Ok tt) ≫= fun _ =>
  (if (batch_size (training self) <=? 0)%Z
   then Raise (ValueError msg_batch_size) else Ok tt) ≫= fun _ =>
  (if PrimFloat.leb (lr (training self)) 0%float
   then Raise (ValueError msg_lr) else Ok tt).

(** A path option is unset when it holds nothing: None, or the empty
    string, the two values of an [Optional[str]] that [not] maps to True. *)
Definition unset (p : option string) : Prop := p = None ∨ p = Some "".

End PretrainCfg.

(** ** predictor.py *)
Module Predictor.

(** What a caller can pass as [data]: a builtin value, a numpy array (its
    elements, along the first axis), or an object of some other class. *)
Inductive PyData : Type :=
| Builtin (v : PyVal)
| NdArray (a : list PyVal)
| OtherObj (cls : string).

(** ['{}'.format(type(data))] *)
Definition type_repr (data : PyData) : string :=
  "<class '" ++
  match data with
  | Builtin PyNone => "NoneType"
  | Builtin (PyBool _) => "bool"
  | Builtin (PyInt _) => "int"
  | Builtin (PyFloat _) => "float"
  | Builtin (PyStr _) => "str"
  | Builtin (PyList _) => "list"
  | Builtin (PyDict _) => "dict"
  | NdArray _ => "numpy.ndarray"
  | OtherObj cls => cls
  end ++ "'>".

(** [isinstance(v, str)] on an element of a list or array. *)
Definition is_str (v : PyVal) : bool :=
  match v with PyStr _ => true | _ => false end.

(** *** MolDataset *)

(** [np.zeros((rows, cols))] *)
Definition np_zeros (rows cols : nat) : list (list float) :=
  replicate rows (replicate cols 0%float).

Record MolDataset (D : Type) : Type := {
  data : list D;
  label : list (list float)
}.
Arguments data {D} _.
Arguments label {D} _.

Definition MolDataset_init {D : Type} (data : list D)
    (label : option (list (list float))) : MolDataset D :=
  {| data := data;
     label := match label with
              | Some l => l
              | None => np_zeros (length data) 1
              end |}.

Definition MolDataset_getitem {D : Type} (self : MolDataset D) (idx : Z)
  : result (D * list float) :=
  match py_index (data self) idx with
  | None => Raise IndexError
  | Some d =>
      match py_index (label self) idx with
      | None => Raise IndexError
      | Some l => Ok (d, l)
      end
  end.

Definition MolDataset_len {D : Type} (self : MolDataset D) : nat :=
  length (data self).

(** *** Collaborators of UniMolRepr

    The model classes, numpy, pandas, DataHub and Trainer are defined
    outside predictor.py. A collaborator either returns or fails with a
    description ([inl]), which the caller sees as a [Collaborator]
    exception. *)
Class ReprEnv : Type := {
  Model : Type;
  ReprTrainer : Type;
  UnimolInput : Type;
  ReprOutput : Type;
  (** [repr(v)] of a value that is not a str *)
  py_repr : PyVal → string;
  (** [torch.cuda.is_available()] *)
  cuda_is_available : bool;
  (** [UniMolModel(output_dim, data_type, remove_hs)] *)
  UniMolModel : Z → PyVal → PyVal → string + Model;
  (** [UniMolV2Model(output_dim, model_size)] *)
  UniMolV2Model : Z → PyVal → string + Model;
  (** [model.to(device)], [model.eval()] *)
  model_to : Model → string → Model;
  model_eval : Model → Model;
  (** [np.array(l)] on a list: the elements of the array along its first
      axis. numpy brings the elements to one type (a number next to a str
      becomes a str) and raises on a ragged list, so the array need not hold
      the elements of the list and need not exist. *)
  np_array : list PyVal → string + list PyVal;
  (** [pd.read_csv(path)]: the columns of the file, by name *)
  read_csv : string → string + gmap string (list PyVal);
  (** [DataHub(data, task='repr', is_train=False, **params).data]: the
      entries of the dict that hold model inputs, by key *)
  DataHub_repr_data : PyData → gmap string PyVal →
                      string + gmap string (list UnimolInput);
  (** [Trainer(task='repr', **params)] *)
  Trainer_repr : gmap string PyVal → string + ReprTrainer;
  (** [trainer.inference(model, model_name, return_repr=True,
      return_atomic_reprs, dataset, return_tensor)] *)
  inference : ReprTrainer → Model → PyVal → PyVal → MolDataset UnimolInput →
              PyVal → string + ReprOutput
}.

Definition collab {A : Type} (r : string + A) : result A :=
  match r with
  | inl what => Raise (Collaborator what)
  | inr a => Ok a
  end.

Section UniMolRepr.
Context {env : ReprEnv}.

(** ['...{}'.format(v)] *)
Definition py_format (v : PyVal) : string :=
  match v with
  | PyStr s => s
  | _ => py_repr v
  end.

Record UniMolRepr : Type := {
  device : string;
  model : Model;
  params : gmap string PyVal;
  trainer : option ReprTrainer
}.

(** [UniMolRepr.__init__]; [kwargs] collects the extra keyword arguments. *)
Definition UniMolRepr_init
    (data_type batch_size remove_hs model_name model_size use_cuda use_ddp
     use_gpu save_path : PyVal) (kwargs : gmap string PyVal)
  : result UniMolRepr :=
  let device :=
    if cuda_is_available && truthy use_cuda then "cuda:0" else "cpu" in
  m ← (if py_eq_str model_name "unimolv1" then
         m ← collab (UniMolModel 1 data_type remove_hs);
         mret (model_to m device)
       else if py_eq_str model_name "unimolv2" then
         m ← collab (UniMolV2Model 1 model_size);
         mret (model_to m device)
       else
         Raise (ValueError ("Unknown model name: " ++ py_format model_name)));
  let m := model_eval m in
  mret {| device := device;
          model := m;
          params :=
            <["save_path" := save_path]>
            (<["use_gpu" := use_gpu]>
            (<["use_ddp" := use_ddp]>
            (<["use_cuda" := use_cuda]>
            (<["model_size" := model_size]>
            (<["model_name" := model_name]>
            (<["remove_hs" := remove_hs]>
            (<["batch_size" := batch_size]>
            (<["data_type" := data_type]> ∅))))))));
          trainer := None |}.

(** The first part of [get_repr]: the dispatch on the type of [data], which
    checks the input and brings it to the form DataHub takes. *)
Definition get_repr_input (data : PyData) : result PyData :=
  match data with
  | Builtin (PyStr s) =>
      if endswith s ".sdf" then
        mret data
      else if endswith s ".csv" then
        df ← collab (read_csv s);
        _ ← py_assert (bool_decide (is_Some (df !! "SMILES")));
        match df !! "SMILES" with
        | Some col => mret (NdArray col)
        | None => Raise (KeyError "SMILES")
        end
      else
        mret (NdArray [PyStr s])
  | Builtin (PyDict d) =>
      _ ← py_assert (bool_decide (is_Some (d !! "atoms"))
                     && bool_decide (is_Some (d !! "coordinates")));
      mret data
  | Builtin (PyList l) =>
      match py_index l (-1) with
      | None => Raise IndexError
      | Some last =>
          _ ← py_assert (is_str last);
          a ← collab (np_array l);
          mret (NdArray a)
      end
  | NdArray a =>
      match py_index a 0 with
      | None => Raise IndexError
      | Some first =>
          _ ← py_assert (is_str first);
          mret data
      end
  | _ => Raise (ValueError ("Unknown data type: " ++ type_repr data))
  end.

(** [UniMolRepr.get_repr]: the object with its trainer set, and the
    representation. *)
Definition get_repr (self : UniMolRepr) (data : PyData)
    (return_atomic_reprs return_tensor : PyVal)
  : result (UniMolRepr * ReprOutput) :=
  data ← get_repr_input data;
  datahub_data ← collab (DataHub_repr_data data (params self));
  inputs ← match datahub_data !! "unimol_input" with
           | Some inputs => Ok inputs
           | None => Raise (KeyError "unimol_input")
           end;
  let dataset := MolDataset_init inputs None in
  tr ← collab (Trainer_repr (params self));
  let self := {| device := device self; model := model self;
                 params := params self; trainer := Some tr |} in
  match params self !! "model_name" with
  | None => Raise (KeyError "model_name")
  | Some name =>
      out ← collab (inference tr (model self) name return_atomic_reprs
                      dataset return_tensor);
      mret (self, out)
  end.

End UniMolRepr.

End Predictor.

(** ** train.py *)
Module Train.
Import Predictor.

(** The arguments of [MolTrain.__init__]. The two directory arguments are
    None or a str; every other argument is stored in the config as given. *)
Record MolTrainArgs : Type := {
  task : PyVal;
  data_type : PyVal;
  epochs : PyVal;
  learning_rate : PyVal;
  batch_size : PyVal;
  early_stopping : PyVal;
  metrics : PyVal;
  split : PyVal;
  split_group_col : PyVal;
  kfold : PyVal;
  save_path : option string;
  remove_hs : PyVal;
  smiles_col : PyVal;
  target_cols : PyVal;
  target_col_prefix : PyVal;
  target_anomaly_check : PyVal;
  smiles_check : PyVal;
  target_normalize : PyVal;
  max_norm : PyVal;
  use_cuda : PyVal;
  use_amp : PyVal;
  use_ddp : PyVal;
  use_gpu : PyVal;
  freeze_layers : PyVal;
  freeze_layers_reversed : PyVal;
  load_model_dir : option string;
  model_name : PyVal;
  model_size : PyVal;
  conf_cache_level : PyVal
}.

(** The defaults of the signature, with the task, the output directory and
    the two record-level policies as arguments. *)
Definition MolTrainArgs_default (task : PyVal) (save_path : option string)
    (target_anomaly_check smiles_check : PyVal) : MolTrainArgs :=
  {| task := task; data_type := PyStr "molecule"; epochs := PyInt 10;
     learning_rate := PyFloat 1e-4%float; batch_size := PyInt 16;
     early_stopping := PyInt 5; metrics := PyStr "none";
     split := PyStr "random"; split_group_col := PyStr "scaffold";
     kfold := PyInt 5; save_path := save_path; remove_hs := PyBool false;
     smiles_col := PyStr "SMILES"; target_cols := PyNone;
     target_col_prefix := PyStr "TARGET";
     target_anomaly_check := target_anomaly_check;
     smiles_check := smiles_check; target_normalize := PyStr "auto";
     max_norm := PyFloat 5%float; use_cuda := PyBool true;
     use_amp := PyBool true; use_ddp := PyBool false; use_gpu := PyStr "all";
     freeze_layers := PyNone; freeze_layers_reversed := PyBool false;
     load_model_dir := None; model_name := PyStr "unimolv1";
     model_size := PyStr "84m"; conf_cache_level := PyInt 1 |}.

Definition opt_str_val (p : option string) : PyVal :=
  match p with
  | None => PyNone
  | Some s => PyStr s
  end.

(** [config.k1 = v1; ...; config.kn = vn], in this order. *)
Definition set_attrs (kvs : list (string * PyVal)) (config : gmap string PyVal)
  : gmap string PyVal :=
  foldl (fun c kv => <[kv.1 := kv.2]> c) config kvs.

(** The assignments of [__init__] to the config read from YAML. *)
Definition init_attrs (a : MolTrainArgs) : list (string * PyVal) :=
  [ ("task", task a);
    ("data_type", data_type a);
    ("epochs", epochs a);
    ("learning_rate", learning_rate a);
    ("batch_size", batch_size a);
    ("patience", early_stopping a);
    ("metrics", metrics a);
    ("split", split a);
    ("split_group_col", split_group_col a);
    ("kfold", kfold a);
    ("remove_hs", remove_hs a);
    ("smiles_col", smiles_col a);
    ("target_cols", target_cols a);
    ("target_col_prefix", target_col_prefix a);
    ("anomaly_clean",
       py_or (target_anomaly_check a)
             (PyBool (py_in_strs (target_anomaly_check a) ["filter"])));
    ("smi_strict", PyBool (py_in_strs (smiles_check a) ["filter"]));
    ("target_normalize", target_normalize a);
    ("max_norm", max_norm a);
    ("use_cuda", use_cuda a);
    ("use_amp", use_amp a);
    ("use_ddp", use_ddp a);
    ("use_gpu", use_gpu a);
    ("freeze_layers", freeze_layers a);
    ("freeze_layers_reversed", freeze_layers_reversed a);
    ("load_model_dir", opt_str_val (load_model_dir a));
    ("model_name", model_name a);
    ("model_size", model_size a);
    ("conf_cache_level", conf_cache_level a) ].

(** *** Collaborators of MolTrain

    DataHub, Trainer, NNModel, the YAML handler, joblib and the file system
    are outside train.py. Constructors and input/output can fail ([inl]);
    array arithmetic is taken as total. *)
Class TrainEnv : Type := {
  Arr : Type;
  Scaler : Type;
  Targets : Type;
  Threshold : Type;
  TrainerT : Type;
  NNModelT : Type;
  (** [repr(v)] of a value that is not a str *)
  fmt_repr : PyVal → string;
  (** [os.path.dirname(__file__)] *)
  module_dir : string;
  (** [YamlHandler(path).read_yaml()] *)
  read_yaml : string → string + gmap string PyVal;
  (** [yamlhandler.write_yaml(data, out_file_path)] *)
  write_yaml : gmap string PyVal → string → string + unit;
  (** [os.path.exists(path)], [os.makedirs(path)] *)
  path_exists : string → bool;
  makedirs : string → string + unit;
  (** [joblib.dump(value, path)] *)
  joblib_dump : Threshold → string → string + unit;
  (** [Trainer(save_path, **config)] *)
  Trainer_new : option string → gmap string PyVal → string + TrainerT;
  (** [trainer.metrics.calculate_classification_threshold(y_true, y_pred)] *)
  calculate_classification_threshold : TrainerT → Arr → Arr → Threshold;
  (** [np.array(targets)] *)
  np_array : Targets → Arr;
  (** [scaler.inverse_transform(a)] *)
  inverse_transform : Scaler → Arr → Arr
}.

Section MolTrain.
Context {env : TrainEnv}.

(** [datahub.data], the entries [fit] and [update_and_save_config] read.
    'multiclass_cnt' is there for some tasks only. *)
Record Data : Type := {
  target_scaler : option Scaler;
  target : Targets;
  num_classes : PyVal;
  data_target_cols : list string;
  multiclass_cnt : option PyVal
}.

(** The remaining collaborators, which take or give [datahub.data]. They
    are taken to leave the objects passed to them as they are; [run] alone
    works on its model. *)
Class TrainCalls : Type := {
  (** [DataHub(data, is_train=True, save_path, **config).data] *)
  DataHub_data : PyData → option string → gmap string PyVal → string + Data;
  (** [NNModel(data, trainer, **config)] *)
  NNModel_new : Data → TrainerT → gmap string PyVal → string + NNModelT;
  (** [model.run()]: the model after the cross-validation loop *)
  NNModel_run : NNModelT → string + NNModelT;
  (** [model.cv['pred']] *)
  cv_pred_of : NNModelT → Arr
}.
Context {calls : TrainCalls}.

(** What a run does to the outside world, in order. *)
Inductive event : Type :=
| LogInfo (msg : string)
| ReadYaml (path : string)
| DataHubBuilt
| Makedirs (path : string)
| WriteYaml (out_path : string) (config : gmap string PyVal)
| TrainerBuilt
| NNModelBuilt
| RunBegin
| RunEnd
| JoblibDump (value : Threshold) (path : string).

(** A computation appends to the trace of events and returns or raises. *)
Definition io (A : Type) : Type := list event → list event * result A.

#[export] Instance io_ret : MRet io := fun A a t => (t, Ok a).
#[export] Instance io_bind : MBind io := fun A B f m t =>
  match m t with
  | (t', Ok a) => f a t'
  | (t', Raise e) => (t', Raise e)
  end.

Definition emit (e : event) : io unit := fun t => ((t ++ [e])%list, Ok tt).
Definition lift {A : Type} (r : result A) : io A := fun t => (t, r).
(** A call into a collaborator, recorded by [e] when it returns. *)
Definition call {A : Type} (r : string + A) (e : event) : io A :=
  a ← lift (collab r); _ ← emit e; mret a.

Definition logger_info (msg : string) : io unit := emit (LogInfo msg).

(** [config[key]]. The config is the dict the YAML handler returns, on
    which reading a missing key raises nothing: it gives an empty dict, and
    leaves the config as it is. *)
Definition config_get (config : gmap string PyVal) (key : string) : PyVal :=
  match config !! key with
  | Some v => v
  | None => PyDict ∅
  end.

(** [f"{v}"] *)
Definition fmt (v : PyVal) : string :=
  match v with
  | PyStr s => s
  | _ => fmt_repr v
  end.

Record MolTrain : Type := {
  yamlhandler : string;
  self_save_path : option string;
  config : gmap string PyVal;
  data : option Data;
  trainer : option TrainerT;
  model : option NNModelT;
  cv_pred : option Arr
}.

Definition with_config (self : MolTrain) (c : gmap string PyVal) : MolTrain :=
  {| yamlhandler := yamlhandler self; self_save_path := self_save_path self;
     config := c; data := data self; trainer := trainer self;
     model := model self; cv_pred := cv_pred self |}.

Definition with_data (self : MolTrain) (d : Data) : MolTrain :=
  {| yamlhandler := yamlhandler self; self_save_path := self_save_path self;
     config := config self; data := Some d; trainer := trainer self;
     model := model self; cv_pred := cv_pred self |}.

Definition with_trainer (self : MolTrain) (tr : TrainerT) : MolTrain :=
  {| yamlhandler := yamlhandler self; self_save_path := self_save_path self;
     config := config self; data := data self; trainer := Some tr;
     model := model self; cv_pred := cv_pred self |}.

Definition with_model (self : MolTrain) (m : NNModelT) : MolTrain :=
  {| yamlhandler := yamlhandler self; self_save_path := self_save_path self;
     config := config self; data := data self; trainer := trainer self;
     model := Some m; cv_pred := cv_pred self |}.

Definition with_cv_pred (self : MolTrain) (p : Arr) : MolTrain :=
  {| yamlhandler := yamlhandler self; self_save_path := self_save_path self;
     config := config self; data := data self; trainer := trainer self;
     model := model self; cv_pred := Some p |}.

(** [MolTrain.__init__] *)
Definition MolTrain_init (a : MolTrainArgs) : io MolTrain :=
  config_path ←
    match load_model_dir a with
    | Some dir =>
        p ← lift (os_path_join (Some dir) "config.yaml");
        _ ← logger_info ("Load config file from " ++ p);
        mret p
    | None => lift (os_path_join (Some module_dir) "config/default.yaml")
    end;
  config ← call (read_yaml config_path) (ReadYaml config_path);
  mret {| yamlhandler := config_path;
          self_save_path := save_path a;
          config := set_attrs (init_attrs a) config;
          data := None; trainer := None; model := None; cv_pred := None |}.

(** [MolTrain.update_and_save_config] *)
Definition update_and_save_config (self : MolTrain) : io MolTrain :=
  d ← lift (match data self with
            | Some d => Ok d
            | None => Raise (AttributeError "data")
            end);
  let c := <["num_classes" := num_classes d]> (config self) in
  let c := <["target_cols" := PyStr (String.concat "," (data_target_cols d))]> c in
  c ← (if py_eq_str (config_get c "task") "multiclass" then
         match multiclass_cnt d with
         | Some n => mret (<["multiclass_cnt" := n]> c)
         | None => lift (Raise (KeyError "multiclass_cnt"))
         end
       else mret c);
  let c :=
    <["split_method" :=
        PyStr (fmt (config_get c "kfold") ++ "fold_"
               ++ fmt (config_get c "split"))]> c in
  let self := with_config self c in
  _ ← match self_save_path self with
      | Some dir =>
          _ ← (if negb (path_exists dir) then
                 _ ← logger_info ("Create output directory: " ++ dir);
                 call (makedirs dir) (Makedirs dir)
               else
                 _ ← logger_info ("Output directory already exists: " ++ dir);
                 logger_info ("Warning: Overwrite output directory: " ++ dir));
          out_path ← lift (os_path_join (Some dir) "config.yaml");
          call (write_yaml (config self) out_path)
               (WriteYaml out_path (config self))
      | None => mret tt
      end;
  mret self.

(** [MolTrain.fit]. [self.model.run()] works on the model in place; here it
    gives the model after the cross-validation loop. *)
Definition fit (self : MolTrain) (input : PyData) : io MolTrain :=
  d ← call (DataHub_data input (self_save_path self) (config self))
           DataHubBuilt;
  let self := with_data self d in
  self ← update_and_save_config self;
  tr ← call (Trainer_new (self_save_path self) (config self)) TrainerBuilt;
  let self := with_trainer self tr in
  m ← call (NNModel_new d tr (config self)) NNModelBuilt;
  let self := with_model self m in
  _ ← emit RunBegin;
  m ← call (NNModel_run m) RunEnd;
  let self := with_model self m in
  let scalar := target_scaler d in
  let y_pred := cv_pred_of m in
  let y_true := np_array (target d) in
  let y_pred :=
    match scalar with
    | Some s => inverse_transform s y_pred
    | None => y_pred
    end in
  let y_true :=
    match scalar with
    | Some s => inverse_transform s y_true
    | None => y_true
    end in
  let tk := config_get (config self) "task" in
  _ ← (if py_in_strs tk ["classification"; "multilabel_classification"] then
         let threshold := calculate_classification_threshold tr y_true y_pred in
         p ← lift (os_path_join (self_save_path self) "threshold.dat");
         call (joblib_dump threshold p) (JoblibDump threshold p)
       else mret tt);
  mret (with_cv_pred self y_pred).

End MolTrain.

End Train.

(** * Properties *)

(** ** PretrainConfig.validate *)
Module PretrainCfgFacts.
Import PretrainCfg.

Lemma unset_falsy (p : option string) :
  unset p ↔ truthy_opt_str p = false.
Proof.
  unfold unset. destruct p as [s|]; simpl.
  - destruct (String.eqb_spec s ""); simpl; split.
    + reflexivity.
    + intros _. right. congruence.
    + intros [H|H]; congruence.
    + discriminate.
  - split; [reflexivity | auto].
Qed.

(** The outcome of the tests that follow the dataset-path test. *)
Definition validate_numbers (c : PretrainConfig) : result unit :=
  if (encoder_layers (model c) <=? 0)%Z
  then Raise (ValueError msg_encoder_layers)
  else if (batch_size (training c) <=? 0)%Z
  then Raise (ValueError msg_batch_size)
  else if PrimFloat.leb (lr (training c)) 0%float
  then Raise (ValueError msg_lr)
  else Ok tt.

Lemma validate_numbers_not_path (c : PretrainConfig) :
  validate_numbers c ≠ Raise (ValueError msg_train_lmdb)
  ∧ validate_numbers c ≠ Raise (ValueError msg_train_path).
Proof.
  unfold validate_numbers.
  destruct (_ <=? _)%Z; [split; discriminate|].
  destruct (_ <=? _)%Z; [split; discriminate|].
  destruct (PrimFloat.leb _ _); split; discriminate.
Qed.

Lemma validate_unfold (c : PretrainConfig) :
  validate c =
    if String.eqb (data_type (dataset c)) "lmdb" then
      if truthy_opt_str (train_lmdb (dataset c)) then validate_numbers c
      else Raise (ValueError msg_train_lmdb)
    else
      if truthy_opt_str (train_path (dataset c)) then validate_numbers c
      else Raise (ValueError msg_train_path).
Proof.
  unfold validate, validate_numbers.
  destruct (String.eqb _ _);
    destruct (truthy_opt_str _); simpl; try reflexivity;
    destruct (_ <=? _)%Z; simpl; try reflexivity;
    destruct (_ <=? _)%Z; simpl; try reflexivity;
    destruct (PrimFloat.leb _ _); reflexivity.
Qed.

(** C1. For every PretrainConfig, [validate] raises the train_lmdb error
    exactly when data_type is 'lmdb' and train_lmdb is unset, and raises the
    train_path error exactly when data_type is not 'lmdb' and train_path is
    unset; in every other case neither dataset-path error is raised, and the
    outcome is that of the tests that follow. *)
Theorem validate_dataset_path (c : PretrainConfig) :
  (validate c = Raise (ValueError msg_train_lmdb)
     ↔ data_type (dataset c) = "lmdb" ∧ unset (train_lmdb (dataset c)))
  ∧ (validate c = Raise (ValueError msg_train_path)
     ↔ data_type (dataset c) ≠ "lmdb" ∧ unset (train_path (dataset c)))
  ∧ (validate c = Raise (ValueError msg_train_lmdb)
     ∨ validate c = Raise (ValueError msg_train_path)
     ∨ validate c = validate_numbers c).
Proof.
  rewrite validate_unfold.
  pose proof (validate_numbers_not_path c) as [Hl Hp].
  rewrite !unset_falsy.
  destruct (String.eqb_spec (data_type (dataset c)) "lmdb") as [E|E].
  - destruct (truthy_opt_str (train_lmdb (dataset c)));
      intuition (try congruence; try discriminate).
  - destruct (truthy_opt_str (train_path (dataset c)));
      intuition (try congruence; try discriminate).
Qed.

Definition set_epochs (c : PretrainConfig) (e : Z) : PretrainConfig :=
  {| dataset := dataset c;
     model := model c;
     training :=
       {| batch_size := batch_size (training c);
          lr := lr (training c);
          weight_decay := weight_decay (training c);
          epochs := e;
          save_every_n_epoch := save_every_n_epoch (training c);
          use_amp := use_amp (training c);
          local_rank := local_rank (training c);
          seed := seed (training c);
          resume := resume (training c) |} |}.

(** A configuration with the given batch size, learning rate and epoch
    count, a training LMDB, and the defaults elsewhere. *)
Definition sample_config (bs : Z) (rate : float) (n_epochs : Z)
  : PretrainConfig :=
  {| dataset := DatasetConfig_default (Some "train.lmdb") None "lmdb";
     model := ModelConfig_default 15;
     training := TrainingConfig_default bs rate n_epochs |}.

(** C2, as stated, fails: a configuration with the default batch size and
    learning rate and an epoch count of zero passes [validate]. *)
Lemma validate_accepts_zero_epochs :
  (epochs (training (sample_config 32 1e-4%float 0)) <= 0)%Z
  ∧ validate (sample_config 32 1e-4%float 0) = Ok tt.
Proof. split; [done | vm_compute; reflexivity]. Qed.

(** C2, amended. For every PretrainConfig whose batch_size is at most zero
    or whose learning rate is at most zero, [validate] raises a ValueError;
    the epoch count is not examined: of every PretrainConfig, passing or
    not, [validate] gives the same outcome whatever training.epochs is. *)
Theorem validate_batch_lr_not_epochs (c : PretrainConfig) (e : Z) :
  ((batch_size (training c) <= 0)%Z
   ∨ PrimFloat.leb (lr (training c)) 0%float = true →
   ∃ msg, validate c = Raise (ValueError msg))
  ∧ validate (set_epochs c e) = validate c.
Proof.
  split; [|reflexivity]. intros H.
  rewrite validate_unfold. unfold validate_numbers.
  destruct (String.eqb _ _); destruct (truthy_opt_str _); eauto;
    destruct (_ <=? _)%Z; eauto;
    destruct (Z.leb_spec (batch_size (training c)) 0); eauto;
    destruct H as [H|H]; try lia; rewrite H; eauto.
Qed.

(** A config that fails on its batch size fails whatever the epoch count
    is, and a config that passes goes on passing with a negative one. *)
Lemma validate_batch_lr_not_epochs_witness :
  (∃ msg, validate (sample_config 0 1e-4%float 10) = Raise (ValueError msg))
  ∧ validate (set_epochs (sample_config 0 1e-4%float 10) (-3))
    = validate (sample_config 0 1e-4%float 10)
  ∧ validate (set_epochs (sample_config 32 1e-4%float 10) (-3)) = Ok tt.
Proof.
  split; [|split].
  - apply (validate_batch_lr_not_epochs (sample_config 0 1e-4%float 10) (-3)).
    left. simpl. lia.
  - apply (validate_batch_lr_not_epochs (sample_config 0 1e-4%float 10) (-3)).
  - rewrite (proj2 (validate_batch_lr_not_epochs
                      (sample_config 32 1e-4%float 10) (-3))).
    vm_compute. reflexivity.
Defined.

Example validate_default_lmdb_missing :
  validate {| dataset := DatasetConfig_default None None "lmdb";
              model := ModelConfig_default 15;
              training := TrainingConfig_default 32 1e-4%float 10 |}
  = Raise (ValueError msg_train_lmdb).
Proof. reflexivity. Qed.

Example validate_smi_path_missing :
  validate {| dataset := DatasetConfig_default (Some "a.lmdb") None "smi";
              model := ModelConfig_default 15;
              training := TrainingConfig_default 32 1e-4%float 10 |}
  = Raise (ValueError msg_train_path).
Proof. reflexivity. Qed.

Example validate_negative_lr :
  validate (sample_config 32 (-1)%float 10) = Raise (ValueError msg_lr).
Proof. vm_compute. reflexivity. Qed.

End PretrainCfgFacts.


(** ** MolDataset and UniMolRepr *)
Module PredictorFacts.
Import Predictor.

(** *** MolDataset *)

Lemma py_index_length {A : Type} (l : list A) (i : Z) (x : A) :
  py_index l i = Some x →
  (0 ≤ i)%Z ∧ (Z.to_nat i < length l)%nat
  ∨ (- Z.of_nat (length l) ≤ i < 0)%Z
    ∧ (Z.to_nat (Z.of_nat (length l) + i) < length l)%nat.
Proof.
  unfold py_index.
  destruct (Z.leb_spec 0 i) as [Hi|Hi].
  - intros Hx%lookup_lt_Some. left. split; [lia | exact Hx].
  - destruct (Z.leb_spec (- Z.of_nat (length l)) i); [|discriminate].
    intros Hx%lookup_lt_Some. right. split; [lia | exact Hx].
Qed.

(** Where [l[i]] is defined, so is the same index into an array of as many
    equal rows, and it gives that row. *)
Lemma py_index_replicate {A B : Type} (l : list A) (i : Z) (x : A) (row : B) :
  py_index l i = Some x →
  py_index (replicate (length l) row) i = Some row.
Proof.
  intros H. apply py_index_length in H.
  unfold py_index. rewrite length_replicate.
  destruct H as [[H0 Hlt] | [H0 Hlt]].
  - destruct (Z.leb_spec 0 i); [|lia].
    apply lookup_replicate_2, Hlt.
  - destruct (Z.leb_spec 0 i); [lia|].
    destruct (Z.leb_spec (- Z.of_nat (length l)) i); [|lia].
    apply lookup_replicate_2, Hlt.
Qed.

(** C9. For a MolDataset built without labels, every index at which the
    data has an element gives that element paired with the zero vector of
    length 1, and the length of the dataset is the length of the data; built
    with labels, the length is again that of the data and index [i] gives
    [(data[i], label[i])]. *)
Theorem MolDataset_items {D : Type} (items : list D) :
  MolDataset_len (MolDataset_init items None) = length items
  ∧ (∀ idx d, py_index items idx = Some d →
       MolDataset_getitem (MolDataset_init items None) idx
       = Ok (d, [0%float]))
  ∧ (∀ labels,
       MolDataset_len (MolDataset_init items (Some labels)) = length items)
  ∧ (∀ labels i d l,
       py_index items i = Some d → py_index labels i = Some l →
       MolDataset_getitem (MolDataset_init items (Some labels)) i
       = Ok (d, l)).
Proof.
  repeat split.
  - intros idx d H. unfold MolDataset_getitem, MolDataset_init, np_zeros.
    simpl. rewrite H, (py_index_replicate items idx d _ H). reflexivity.
  - intros labels i d l Hd Hl. unfold MolDataset_getitem. simpl.
    rewrite Hd, Hl. reflexivity.
Qed.

Example MolDataset_unlabelled_last :
  MolDataset_getitem (MolDataset_init ["CCO"; "CC"; "C"] None) (-1)
  = Ok ("C", [0%float]).
Proof. reflexivity. Qed.

Example MolDataset_unlabelled_out_of_range :
  MolDataset_getitem (MolDataset_init ["CCO"; "CC"; "C"] None) 3
  = Raise IndexError.
Proof. reflexivity. Qed.

Example MolDataset_labelled_second :
  MolDataset_getitem
    (MolDataset_init ["CCO"; "CC"] (Some [[1%float]; [2%float]])) 1
  = Ok ("CC", [2%float]).
Proof. reflexivity. Qed.

(** *** UniMolRepr *)
Section UniMolRepr.
Context {env : ReprEnv}.

(** C3. Constructing UniMolRepr with a model name that is a string raises
    the ValueError for an unknown model name exactly when the name is
    neither 'unimolv1' nor 'unimolv2'; for these two names the constructor
    raises no ValueError at all. *)
Theorem UniMolRepr_unknown_model_name
    (data_type batch_size remove_hs model_size use_cuda use_ddp use_gpu
     save_path : PyVal) (kwargs : gmap string PyVal) (name : string) :
  (UniMolRepr_init data_type batch_size remove_hs (PyStr name) model_size
     use_cuda use_ddp use_gpu save_path kwargs
   = Raise (ValueError ("Unknown model name: " ++ name))
   ↔ name ≠ "unimolv1" ∧ name ≠ "unimolv2")
  ∧ (∀ msg,
       UniMolRepr_init data_type batch_size remove_hs (PyStr name) model_size
         use_cuda use_ddp use_gpu save_path kwargs
       = Raise (ValueError msg) →
       name ≠ "unimolv1" ∧ name ≠ "unimolv2").
Proof.
  unfold UniMolRepr_init. simpl.
  destruct (String.eqb_spec name "unimolv1") as [E1|E1].
  - destruct (UniMolModel 1 data_type remove_hs); simpl;
      (split; [split|]); intros; try discriminate; tauto.
  - destruct (String.eqb_spec name "unimolv2") as [E2|E2].
    + destruct (UniMolV2Model 1 model_size); simpl;
        (split; [split|]); intros; try discriminate; tauto.
    + simpl. split; [split|]; intros; auto.
Qed.

(** [isinstance(data, (str, dict, list, np.ndarray))] *)
Definition accepted_type (data : PyData) : bool :=
  match data with
  | Builtin (PyStr _) | Builtin (PyDict _) | Builtin (PyList _)
  | NdArray _ => true
  | _ => false
  end.

Lemma endswith_csv_not_sdf (s : string) :
  endswith s ".csv" = true → endswith s ".sdf" = false.
Proof.
  unfold endswith. cbn [String.length].
  destruct (4 <=? String.length s)%nat; [|reflexivity].
  destruct (String.eqb_spec (substring (String.length s - 4) 4 s) ".csv")
    as [E|E]; [|discriminate].
  intros _. rewrite E. reflexivity.
Qed.

Lemma get_repr_raise (self : UniMolRepr) (data : PyData) (ra rt : PyVal)
    (e : exn) :
  get_repr_input data = Raise e → get_repr self data ra rt = Raise e.
Proof. unfold get_repr. intros ->. reflexivity. Qed.

(** Once the input is accepted, no assertion is left to fail. *)
Lemma get_repr_ok (self : UniMolRepr) (data data' : PyData) (ra rt : PyVal) :
  get_repr_input data = Ok data' →
  get_repr self data ra rt ≠ Raise AssertionError.
Proof.
  unfold get_repr. intros ->. simpl.
  destruct (DataHub_repr_data data' (params self)) as [?|hub]; simpl;
    [discriminate|].
  destruct (hub !! "unimol_input"); simpl; [|discriminate].
  destruct (Trainer_repr (params self)); simpl; [discriminate|].
  destruct (params self !! "model_name"); simpl; [|discriminate].
  destruct (inference _ _ _ _ _ _); simpl; discriminate.
Qed.

(** C10. [get_repr] raises the ValueError for an unknown data type on every
    input that is not a str, dict, list or numpy array; on a dict it fails
    an assertion exactly when 'atoms' or 'coordinates' is not a key; on the
    path of a CSV file that pandas can read it fails an assertion exactly
    when the file has no column named 'SMILES'. No column name is configured
    on the object: the constructor drops extra keyword arguments such as
    smiles_col. *)
Theorem get_repr_rejects_unsupported (self : UniMolRepr)
    (return_atomic_reprs return_tensor : PyVal) :
  (∀ data, accepted_type data = false →
     get_repr self data return_atomic_reprs return_tensor
     = Raise (ValueError ("Unknown data type: " ++ type_repr data)))
  ∧ (∀ d : gmap string PyVal,
       get_repr self (Builtin (PyDict d)) return_atomic_reprs return_tensor
       = Raise AssertionError
       ↔ ¬ (is_Some (d !! "atoms") ∧ is_Some (d !! "coordinates")))
  ∧ (∀ path df,
       endswith path ".csv" = true → read_csv path = inr df →
       (get_repr self (Builtin (PyStr path)) return_atomic_reprs return_tensor
        = Raise AssertionError
        ↔ df !! "SMILES" = None))
  ∧ (∀ data_type batch_size remove_hs model_name model_size use_cuda use_ddp
       use_gpu save_path kwargs,
       UniMolRepr_init data_type batch_size remove_hs model_name model_size
         use_cuda use_ddp use_gpu save_path kwargs
       = UniMolRepr_init data_type batch_size remove_hs model_name model_size
           use_cuda use_ddp use_gpu save_path ∅).
Proof.
  split; [|split; [|split]].
  - intros data H. apply get_repr_raise.
    destruct data as [[| | | |s|l|d]|a|cls]; simpl in *;
      try discriminate; reflexivity.
  - intros d.
    destruct (get_repr_input (Builtin (PyDict d))) as [data'|e] eqn:Hin.
    + split.
      * intros H. exfalso.
        exact (get_repr_ok self _ _ _ _ Hin H).
      * intros Hno. exfalso. simpl in Hin.
        destruct (d !! "atoms"), (d !! "coordinates"); simpl in Hin;
          try discriminate.
        apply Hno. eauto.
    + rewrite (get_repr_raise _ _ _ _ _ Hin). simpl in Hin.
      destruct (d !! "atoms"), (d !! "coordinates"); simpl in Hin;
        try discriminate; injection Hin as <-;
        (split; [intros _ [[? ?] [? ?]]; discriminate | reflexivity]).
  - intros path df Hcsv Hread.
    assert (Hin : get_repr_input (Builtin (PyStr path))
                  = match df !! "SMILES" with
                    | Some col => Ok (NdArray col)
                    | None => Raise AssertionError
                    end).
    { simpl. rewrite (endswith_csv_not_sdf _ Hcsv), Hcsv, Hread. simpl.
      destruct (df !! "SMILES"); reflexivity. }
    destruct (df !! "SMILES") as [col|].
    + split; [|discriminate]. intros H. exfalso.
      exact (get_repr_ok self _ _ _ _ Hin H).
    + rewrite (get_repr_raise _ _ _ _ _ Hin). tauto.
  - reflexivity.
Qed.

End UniMolRepr.

(** *** A small world to run the predictor in

    CUDA is absent, both model classes construct, numpy writes the
    integers of a list with strs as strs and refuses a list that holds a
    list, [mols.csv] has a SMILES column and [smi.csv] has a column named
    smi only, DataHub passes the molecules of an array on, and inference
    counts the dataset. *)
#[local] Instance sample_repr_env : ReprEnv := {|
  Model := string;
  ReprTrainer := unit;
  UnimolInput := PyVal;
  ReprOutput := nat;
  py_repr := fun _ => "<value>";
  cuda_is_available := false;
  UniMolModel := fun _ _ _ => inr "UniMolModel";
  UniMolV2Model := fun _ _ => inr "UniMolV2Model";
  model_to := fun m _ => m;
  model_eval := fun m => m;
  np_array := fun l =>
    if existsb (fun v => match v with PyList _ => true | _ => false end) l
    then inl "ValueError: inhomogeneous shape"
    else inr (map (fun v => match v with
                            | PyInt z => PyStr (pretty z)
                            | _ => v
                            end) l);
  read_csv := fun path =>
    if String.eqb path "mols.csv" then
      inr {[ "SMILES" := [PyStr "CCO"; PyStr "CC"] ]}
    else if String.eqb path "smi.csv" then
      inr {[ "smi" := [PyStr "CCO"; PyStr "CC"] ]}
    else inl "FileNotFoundError";
  DataHub_repr_data := fun data _ =>
    inr {[ "unimol_input" := match data with
                             | NdArray a => a
                             | _ => [PyNone]
                             end ]};
  Trainer_repr := fun _ => inr tt;
  inference := fun _ _ _ _ dataset _ => inr (MolDataset_len dataset)
|}.

(** [UniMolRepr(model_name=name, **kwargs).get_repr(data)], defaults
    elsewhere. *)
Definition sample_get_repr (name : string) (kwargs : gmap string PyVal)
    (data : PyData) : result nat :=
  self ← UniMolRepr_init (env := sample_repr_env) (PyStr "molecule") (PyInt 32) (PyBool false)
           (PyStr name) (PyStr "84m") (PyBool true) (PyBool false)
           (PyStr "all") PyNone kwargs;
  r ← get_repr self data (PyBool false) (PyBool false);
  mret r.2.

Example sample_unknown_model :
  sample_get_repr "unimolv3" ∅ (Builtin (PyStr "CCO"))
  = Raise (ValueError "Unknown model name: unimolv3").
Proof. vm_compute. reflexivity. Qed.

Example sample_single_smiles :
  sample_get_repr "unimolv1" ∅ (Builtin (PyStr "CCO")) = Ok 1%nat.
Proof. vm_compute. reflexivity. Qed.

Example sample_v2_list :
  sample_get_repr "unimolv2" ∅ (Builtin (PyList [PyStr "CCO"; PyStr "C"]))
  = Ok 2%nat.
Proof. vm_compute. reflexivity. Qed.

(** [np.array([1, 'CCO'])] is an array of two strs, and
    [np.array([[1, 2], 'CCO'])] raises. *)
Example sample_mixed_list :
  get_repr_input (env := sample_repr_env)
    (Builtin (PyList [PyInt 1; PyStr "CCO"]))
  = Ok (NdArray [PyStr "1"; PyStr "CCO"]).
Proof. vm_compute. reflexivity. Qed.

Example sample_ragged_list :
  sample_get_repr "unimolv1" ∅
    (Builtin (PyList [PyList [PyInt 1; PyInt 2]; PyStr "CCO"]))
  = Raise (Collaborator "ValueError: inhomogeneous shape").
Proof. vm_compute. reflexivity. Qed.

Example sample_int_input :
  sample_get_repr "unimolv1" ∅ (Builtin (PyInt 7))
  = Raise (ValueError "Unknown data type: <class 'int'>").
Proof. vm_compute. reflexivity. Qed.

Example sample_none_input :
  sample_get_repr "unimolv1" ∅ (Builtin PyNone)
  = Raise (ValueError "Unknown data type: <class 'NoneType'>").
Proof. vm_compute. reflexivity. Qed.

Example sample_dict_without_coordinates :
  sample_get_repr "unimolv1" ∅
    (Builtin (PyDict {[ "atoms" := PyList [PyList [PyStr "C"]] ]}))
  = Raise AssertionError.
Proof. vm_compute. reflexivity. Qed.

Example sample_dict_complete :
  sample_get_repr "unimolv1" ∅
    (Builtin (PyDict (<[ "coordinates" := PyList [] ]>
                      {[ "atoms" := PyList [PyList [PyStr "C"]] ]})))
  = Ok 1%nat.
Proof. vm_compute. reflexivity. Qed.

Example sample_csv_with_SMILES :
  sample_get_repr "unimolv1" ∅ (Builtin (PyStr "mols.csv")) = Ok 2%nat.
Proof. vm_compute. reflexivity. Qed.

(** The file has a column smi, and smiles_col='smi' is passed to the
    constructor: the assertion on 'SMILES' fails all the same. *)
Example sample_csv_other_column :
  sample_get_repr "unimolv1" {[ "smiles_col" := PyStr "smi" ]}
    (Builtin (PyStr "smi.csv"))
  = Raise AssertionError.
Proof. vm_compute. reflexivity. Qed.

End PredictorFacts.


(** ** MolTrain *)
Module TrainFacts.
Import Predictor Train.

(** *** The two record-level policies in the config *)

Lemma py_in_filter (v : PyVal) :
  py_in_strs v ["filter"] = true ↔ v = PyStr "filter".
Proof.
  unfold py_in_strs. simpl. rewrite orb_false_r.
  destruct v; simpl; try (split; [discriminate | intros; discriminate]).
  destruct (String.eqb_spec s "filter"); split; congruence.
Qed.

(** The value a run of assignments leaves under a key: the last one
    assigned to it, or what the config held before. *)
Fixpoint last_assigned (k : string) (kvs : list (string * PyVal))
    (before : option PyVal) : option PyVal :=
  match kvs with
  | [] => before
  | kv :: rest =>
      last_assigned k rest (if String.eqb kv.1 k then Some kv.2 else before)
  end.

Lemma set_attrs_lookup (kvs : list (string * PyVal))
    (c : gmap string PyVal) (k : string) :
  set_attrs kvs c !! k = last_assigned k kvs (c !! k).
Proof.
  revert c. induction kvs as [|[k' v] rest IH]; intros c; [reflexivity|].
  unfold set_attrs in *. cbn [foldl last_assigned fst snd].
  rewrite IH. f_equal.
  destruct (String.eqb_spec k' k) as [->|Hne].
  - apply lookup_insert_eq.
  - apply lookup_insert_ne, Hne.
Qed.

Lemma init_attrs_smi_strict (a : MolTrainArgs) (base : gmap string PyVal) :
  set_attrs (init_attrs a) base !! "smi_strict"
  = Some (PyBool (py_in_strs (smiles_check a) ["filter"])).
Proof. rewrite set_attrs_lookup. reflexivity. Qed.

Lemma init_attrs_anomaly_clean (a : MolTrainArgs) (base : gmap string PyVal) :
  set_attrs (init_attrs a) base !! "anomaly_clean"
  = Some (py_or (target_anomaly_check a)
                (PyBool (py_in_strs (target_anomaly_check a) ["filter"]))).
Proof. rewrite set_attrs_lookup. reflexivity. Qed.

Lemma init_attrs_task (a : MolTrainArgs) (base : gmap string PyVal) :
  set_attrs (init_attrs a) base !! "task" = Some (task a).
Proof. rewrite set_attrs_lookup. reflexivity. Qed.

(** The flag follows the truth value of the argument itself: every truthy
    value switches the filter on, 'filter' or not. *)
Lemma anomaly_clean_truthy (v : PyVal) :
  truthy (py_or v (PyBool (py_in_strs v ["filter"]))) = truthy v.
Proof.
  unfold py_or. destruct (truthy v) eqn:E; [exact E|].
  simpl. apply not_true_is_false. intros H%py_in_filter.
  subst v. discriminate.
Qed.

(** C4 at the input [target_anomaly_check='none']: whatever the YAML file
    holds, the config flag anomaly_clean is the str 'none', which is truthy,
    so the pass-through policy switches anomaly filtering on. *)
Theorem anomaly_clean_none_is_truthy (base : gmap string PyVal) :
  set_attrs
    (init_attrs (MolTrainArgs_default (PyStr "classification")
                   (Some "./exp") (PyStr "none") (PyStr "filter")))
    base !! "anomaly_clean"
  = Some (PyStr "none")
  ∧ truthy (PyStr "none") = true
  ∧ PyStr "none" ≠ PyStr "filter".
Proof.
  rewrite init_attrs_anomaly_clean. repeat split. discriminate.
Qed.

Lemma py_eq_str_true (v : PyVal) (s : string) :
  py_eq_str v s = true ↔ v = PyStr s.
Proof.
  destruct v; cbn [py_eq_str]; try (split; discriminate).
  rewrite String.eqb_eq. split; congruence.
Qed.

Lemma os_path_join_Some (dir b : string) :
  ∃ p, os_path_join (Some dir) b = Ok p.
Proof.
  unfold os_path_join.
  destruct (String.eqb dir ""); [eauto|].
  destruct (endswith dir "/"); eauto.
Qed.

Lemma os_path_join_Raise (a : option string) (b : string) (e : exn) :
  os_path_join a b = Raise e → a = None ∧ e = TypeError.
Proof.
  destruct a as [dir|].
  - destruct (os_path_join_Some dir b) as [p ->]. discriminate.
  - intros [= <-]. done.
Qed.

Ltac elem_here :=
  repeat first [ apply list_elem_of_here | apply list_elem_of_further ].

(** Discharges [e ∈ l] for a list [l] that does not hold [e]. *)
Ltac not_in_list H :=
  repeat (apply elem_of_cons in H as [H|H]; [discriminate|]);
  apply elem_of_nil in H; destruct H.

Section MolTrain.
Context {env : TrainEnv} {calls : TrainCalls}.

Lemma io_ok_inv {A : Type} (t1 t2 : list event) (a b : A) :
  (t1, Ok a) = (t2, Ok b) → t1 = t2 ∧ a = b.
Proof. intros H. inversion H. auto. Qed.

(** What [__init__] returns, when it returns. *)
Lemma MolTrain_init_config (a : MolTrainArgs) (t t' : list event)
    (self : MolTrain) :
  MolTrain_init a t = (t', Ok self) →
  self_save_path self = save_path a
  ∧ ∃ base, config self = set_attrs (init_attrs a) base.
Proof.
  unfold MolTrain_init.
  cbv [mbind io_bind mret io_ret call lift emit logger_info collab].
  destruct (load_model_dir a) as [dir|].
  - destruct (os_path_join (Some dir) "config.yaml") as [p|e];
      [|discriminate].
    destruct (read_yaml p) as [?|base]; [discriminate|].
    intros [_ <-]%io_ok_inv. split; [reflexivity | eexists; reflexivity].
  - destruct (os_path_join (Some module_dir) "config/default.yaml") as [p|e];
      [|discriminate].
    destruct (read_yaml p) as [?|base]; [discriminate|].
    intros [_ <-]%io_ok_inv. split; [reflexivity | eexists; reflexivity].
Qed.

(** C5. For every value of smiles_check, the config of a constructed
    MolTrain holds a Boolean under smi_strict, and it is True if and only
    if smiles_check equals 'filter'. *)
Theorem smi_strict_iff_filter (a : MolTrainArgs) (t t' : list event)
    (self : MolTrain) :
  MolTrain_init a t = (t', Ok self) →
  ∃ b, config self !! "smi_strict" = Some (PyBool b)
       ∧ (b = true ↔ smiles_check a = PyStr "filter").
Proof.
  intros H. apply MolTrain_init_config in H as [_ [base ->]].
  rewrite init_attrs_smi_strict. eexists. split; [reflexivity|].
  apply py_in_filter.
Qed.

Local Open Scope list_scope.

Lemma Ok_inj {A : Type} (a b : A) : Ok a = Ok b → a = b.
Proof. intros H. inversion H. reflexivity. Qed.

(** *** Reading the config *)

Lemma config_get_insert_ne (c : gmap string PyVal) (k k' : string)
    (v : PyVal) :
  k' ≠ k → config_get (<[k' := v]> c) k = config_get c k.
Proof. intros H. unfold config_get. by rewrite lookup_insert_ne. Qed.

Lemma config_get_lookup (c c' : gmap string PyVal) (k : string) :
  c' !! k = c !! k → config_get c' k = config_get c k.
Proof. unfold config_get. by intros ->. Qed.

Lemma py_in_classification (tk : PyVal) :
  py_in_strs tk ["classification"; "multilabel_classification"] = true
  ↔ tk = PyStr "classification" ∨ tk = PyStr "multilabel_classification".
Proof.
  unfold py_in_strs. cbn [existsb]. rewrite orb_false_r, orb_true_iff.
  destruct tk; cbn [py_eq_str];
    try (split; [intros [?|?]; discriminate | intros [?|?]; discriminate]).
  rewrite !String.eqb_eq.
  split; (intros [E|E]; [left | right]; congruence).
Qed.

(** The test of line 199, read off the config. *)
Lemma task_in_classification (c : gmap string PyVal) :
  py_in_strs (config_get c "task")
    ["classification"; "multilabel_classification"] = true
  ↔ c !! "task" = Some (PyStr "classification")
    ∨ c !! "task" = Some (PyStr "multilabel_classification").
Proof.
  rewrite py_in_classification. unfold config_get.
  destruct (c !! "task") as [tk|].
  - split; (intros [E|E]; [left | right]; congruence).
  - split; intros [E|E]; discriminate.
Qed.

(** *** update_and_save_config in two steps *)

(** Lines 210 to 217: the entries taken from the data. *)
Definition updated_config (c0 : gmap string PyVal) (d : Data)
  : result (gmap string PyVal) :=
  let c := <["num_classes" := num_classes d]> c0 in
  let c :=
    <["target_cols" := PyStr (String.concat "," (data_target_cols d))]> c in
  c ← (if py_eq_str (config_get c "task") "multiclass" then
         match multiclass_cnt d with
         | Some n => Ok (<["multiclass_cnt" := n]> c)
         | None => Raise (KeyError "multiclass_cnt")
         end
       else Ok c);
  Ok (<["split_method" :=
          PyStr (fmt (config_get c "kfold") ++ "fold_"
                 ++ fmt (config_get c "split"))]> c).

(** Lines 218 to 230: the output directory and the file. *)
Definition save_config (save_path : option string)
    (c : gmap string PyVal) : io unit :=
  match save_path with
  | Some dir =>
      _ ← (if negb (path_exists dir) then
             _ ← logger_info ("Create output directory: " ++ dir);
             call (makedirs dir) (Makedirs dir)
           else
             _ ← logger_info ("Output directory already exists: " ++ dir);
             logger_info ("Warning: Overwrite output directory: " ++ dir));
      out_path ← lift (os_path_join (Some dir) "config.yaml");
      call (write_yaml c out_path) (WriteYaml out_path c)
  | None => mret tt
  end.

(** [update_and_save_config] is the one after the other. *)
Lemma update_and_save_config_run (self : MolTrain) (t : list event) :
  update_and_save_config self t
  = match data self with
    | None => (t, Raise (AttributeError "data"))
    | Some d =>
        match updated_config (config self) d with
        | Raise e => (t, Raise e)
        | Ok c =>
            match save_config (self_save_path self) c t with
            | (t1, Ok _) => (t1, Ok (with_config self c))
            | (t1, Raise e) => (t1, Raise e)
            end
        end
    end.
Proof.
  unfold update_and_save_config, updated_config, save_config.
  cbv [mbind io_bind result_bind mret io_ret result_ret lift].
  destruct (data self) as [d|]; [|reflexivity].
  destruct (py_eq_str _ "multiclass").
  - destruct (multiclass_cnt d) as [n|]; [|reflexivity].
    cbn [self_save_path config with_config].
    destruct (self_save_path self) as [dir|]; [|reflexivity].
    destruct (negb (path_exists dir)).
    + destruct (logger_info _ t) as [t1 [[]|e]]; [|reflexivity].
      destruct (call (makedirs dir) _ t1) as [t2 [[]|e]]; [|reflexivity].
      destruct (os_path_join (Some dir) "config.yaml"); [|reflexivity].
      destruct (call _ _ t2) as [t3 [[]|e]]; reflexivity.
    + destruct (logger_info _ t) as [t1 [[]|e]]; [|reflexivity].
      destruct (logger_info _ t1) as [t2 [[]|e]]; [|reflexivity].
      destruct (os_path_join (Some dir) "config.yaml"); [|reflexivity].
      destruct (call _ _ t2) as [t3 [[]|e]]; reflexivity.
  - cbn [self_save_path config with_config].
    destruct (self_save_path self) as [dir|]; [|reflexivity].
    destruct (negb (path_exists dir)).
    + destruct (logger_info _ t) as [t1 [[]|e]]; [|reflexivity].
      destruct (call (makedirs dir) _ t1) as [t2 [[]|e]]; [|reflexivity].
      destruct (os_path_join (Some dir) "config.yaml"); [|reflexivity].
      destruct (call _ _ t2) as [t3 [[]|e]]; reflexivity.
    + destruct (logger_info _ t) as [t1 [[]|e]]; [|reflexivity].
      destruct (logger_info _ t1) as [t2 [[]|e]]; [|reflexivity].
      destruct (os_path_join (Some dir) "config.yaml"); [|reflexivity].
      destruct (call _ _ t2) as [t3 [[]|e]]; reflexivity.
Qed.

(** What the second step logs and does before it writes. *)
Definition dir_events (dir : string) : list event :=
  if path_exists dir
  then [LogInfo ("Output directory already exists: " ++ dir);
        LogInfo ("Warning: Overwrite output directory: " ++ dir)]
  else [LogInfo ("Create output directory: " ++ dir); Makedirs dir].

Lemma save_config_run (dir : string) (c : gmap string PyVal)
    (t : list event) :
  ∃ p, os_path_join (Some dir) "config.yaml" = Ok p
    ∧ save_config (Some dir) c t
      = if path_exists dir then
          match write_yaml c p with
          | inl w => (t ++ dir_events dir, Raise (Collaborator w))
          | inr _ => (t ++ dir_events dir ++ [WriteYaml p c], Ok tt)
          end
        else
          match makedirs dir with
          | inl w =>
              (t ++ [LogInfo ("Create output directory: " ++ dir)],
               Raise (Collaborator w))
          | inr _ =>
              match write_yaml c p with
              | inl w => (t ++ dir_events dir, Raise (Collaborator w))
              | inr _ => (t ++ dir_events dir ++ [WriteYaml p c], Ok tt)
              end
          end.
Proof.
  destruct (os_path_join_Some dir "config.yaml") as [p Hp].
  exists p. split; [exact Hp|].
  unfold save_config, dir_events.
  cbv [mbind io_bind mret io_ret call lift emit logger_info collab].
  rewrite Hp.
  destruct (path_exists dir); cbn [negb].
  - destruct (write_yaml c p) as [w|[]];
      rewrite <- ?app_assoc; reflexivity.
  - destruct (makedirs dir) as [w|[]]; [reflexivity|].
    destruct (write_yaml c p) as [w|[]];
      rewrite <- ?app_assoc; reflexivity.
Qed.

(** What a successful update leaves in the config. *)
Lemma updated_config_Ok (c0 c : gmap string PyVal) (d : Data) :
  updated_config c0 d = Ok c →
  c !! "num_classes" = Some (num_classes d)
  ∧ c !! "target_cols"
    = Some (PyStr (String.concat "," (data_target_cols d)))
  ∧ c !! "split_method"
    = Some (PyStr (fmt (config_get c0 "kfold") ++ "fold_"
                   ++ fmt (config_get c0 "split")))
  ∧ c !! "multiclass_cnt"
    = (if py_eq_str (config_get c0 "task") "multiclass"
       then multiclass_cnt d else c0 !! "multiclass_cnt")
  ∧ ∀ k, k ∉ ["num_classes"; "target_cols"; "multiclass_cnt";
              "split_method"] →
      c !! k = c0 !! k.
Proof.
  unfold updated_config.
  cbv [mbind result_bind mret result_ret]. cbv zeta.
  rewrite !config_get_insert_ne by done.
  destruct (py_eq_str (config_get c0 "task") "multiclass").
  - destruct (multiclass_cnt d) as [n|]; [|discriminate].
    rewrite !config_get_insert_ne by done.
    intros <-%Ok_inj.
    split; [by rewrite !lookup_insert_ne, lookup_insert_eq by done|].
    split; [by rewrite !lookup_insert_ne, lookup_insert_eq by done|].
    split; [by rewrite lookup_insert_eq|].
    split; [by rewrite !lookup_insert_ne, lookup_insert_eq by done|].
    intros k Hk. repeat (apply not_elem_of_cons in Hk as [? Hk]).
    by rewrite !lookup_insert_ne by done.
  - rewrite !config_get_insert_ne by done.
    intros <-%Ok_inj.
    split; [by rewrite !lookup_insert_ne, lookup_insert_eq by done|].
    split; [by rewrite !lookup_insert_ne, lookup_insert_eq by done|].
    split; [by rewrite lookup_insert_eq|].
    split; [by rewrite !lookup_insert_ne by done|].
    intros k Hk. repeat (apply not_elem_of_cons in Hk as [? Hk]).
    by rewrite !lookup_insert_ne by done.
Qed.

(** When the update raises, the data lacks the class counts of a
    multiclass task. *)
Lemma updated_config_Raise (c0 : gmap string PyVal) (d : Data) (e : exn) :
  updated_config c0 d = Raise e →
  e = KeyError "multiclass_cnt"
  ∧ c0 !! "task" = Some (PyStr "multiclass") ∧ multiclass_cnt d = None.
Proof.
  unfold updated_config.
  cbv [mbind result_bind mret result_ret]. cbv zeta.
  rewrite !config_get_insert_ne by done.
  destruct (py_eq_str (config_get c0 "task") "multiclass") eqn:Htk;
    [|discriminate].
  apply py_eq_str_true in Htk.
  destruct (multiclass_cnt d) as [n|]; [discriminate|].
  intros [= <-]. split; [reflexivity|]. split; [|reflexivity].
  unfold config_get in Htk. destruct (c0 !! "task"); congruence.
Qed.

(** A returning [update_and_save_config], taken apart. *)
Lemma update_and_save_config_Ok (self self' : MolTrain)
    (t t' : list event) :
  update_and_save_config self t = (t', Ok self') →
  ∃ d c, data self = Some d ∧ updated_config (config self) d = Ok c
         ∧ save_config (self_save_path self) c t = (t', Ok tt)
         ∧ self' = with_config self c.
Proof.
  rewrite update_and_save_config_run.
  destruct (data self) as [d|]; [|discriminate].
  destruct (updated_config (config self) d) as [c|] eqn:Hc; [|discriminate].
  destruct (save_config (self_save_path self) c t) as [t1 [[]|e]] eqn:Hs;
    [|discriminate].
  intros [-> <-]%io_ok_inv. exists d, c. repeat split; assumption.
Qed.

(** What a returning [update_and_save_config] keeps. *)
Lemma update_and_save_config_keeps (self self1 : MolTrain)
    (t t1 : list event) :
  update_and_save_config self t = (t1, Ok self1) →
  yamlhandler self1 = yamlhandler self
  ∧ self_save_path self1 = self_save_path self
  ∧ data self1 = data self
  ∧ config self1 !! "split_method"
    = Some (PyStr (fmt (config_get (config self) "kfold") ++ "fold_"
                   ++ fmt (config_get (config self) "split")))
  ∧ ∀ k, k ∉ ["num_classes"; "target_cols"; "multiclass_cnt";
              "split_method"] →
      config self1 !! k = config self !! k.
Proof.
  intros (d & c & _ & Hc & _ & ->)%update_and_save_config_Ok.
  cbn [yamlhandler self_save_path data config with_config].
  do 3 (split; [reflexivity|]).
  apply updated_config_Ok in Hc as (_ & _ & Hsm & _ & Hkeep).
  split; assumption.
Qed.

Lemma update_and_save_config_task (self self1 : MolTrain)
    (t t1 : list event) :
  update_and_save_config self t = (t1, Ok self1) →
  config self1 !! "task" = config self !! "task".
Proof.
  intros (_ & _ & _ & _ & Hkeep)%update_and_save_config_keeps.
  apply Hkeep. apply (bool_decide_unpack _). vm_compute. exact I.
Qed.

(** *** The events of a run *)

Definition setup_event (e : event) : Prop :=
  match e with
  | DataHubBuilt | LogInfo _ | Makedirs _ | WriteYaml _ _ => True
  | _ => False
  end.

Definition training_event (e : event) : Prop :=
  match e with
  | TrainerBuilt | NNModelBuilt | RunBegin | RunEnd | JoblibDump _ _ => True
  | _ => False
  end.

(** A line of the log, or the creation of the output directory. *)
Definition dir_event (e : event) : Prop :=
  match e with
  | LogInfo _ | Makedirs _ => True
  | _ => False
  end.

Lemma setup_not_training (e : event) :
  setup_event e → training_event e → False.
Proof. destruct e; simpl; tauto. Qed.

Lemma dir_event_setup (e : event) : dir_event e → setup_event e.
Proof. destruct e; simpl; tauto. Qed.

Lemma dir_events_dir_event (dir : string) : Forall dir_event (dir_events dir).
Proof.
  unfold dir_events. destruct (path_exists dir);
    repeat (constructor; try exact I).
Qed.

(** In a trace of two phases, an event of the first kind stands before
    an event of the second kind. *)
Lemma phases_ordered (pre post : list event) (i j : nat) (a b : event) :
  Forall setup_event pre → Forall training_event post →
  (pre ++ post) !! i = Some a → (pre ++ post) !! j = Some b →
  setup_event a → training_event b →
  (i < length pre ≤ j)%nat.
Proof.
  intros Hpre Hpost Hi Hj Ha Hb. split.
  - destruct (decide (i < length pre)%nat) as [|Hge]; [done|].
    rewrite lookup_app_r in Hi by lia.
    destruct (setup_not_training a Ha).
    eapply Forall_lookup_1; eauto.
  - destruct (decide (length pre ≤ j)%nat) as [|Hlt]; [done|].
    rewrite lookup_app_l in Hj by lia.
    destruct (setup_not_training b); [|done].
    eapply Forall_lookup_1; eauto.
Qed.

(** Every run of [update_and_save_config]: log lines and the creation of
    the directory, and then, when it returns with an output directory, the
    write of the config it leaves in the object. *)
Lemma update_and_save_config_trace (self : MolTrain) (t t' : list event)
    (r : result MolTrain) :
  update_and_save_config self t = (t', r) →
  ∃ pre, Forall dir_event pre
    ∧ match r with
      | Raise _ => t' = t ++ pre
      | Ok self1 =>
          match self_save_path self with
          | None => pre = [] ∧ t' = t
          | Some dir =>
              pre = dir_events dir
              ∧ ∃ p, os_path_join (Some dir) "config.yaml" = Ok p
                     ∧ t' = t ++ pre ++ [WriteYaml p (config self1)]
          end
      end.
Proof.
  rewrite update_and_save_config_run.
  destruct (data self) as [d|];
    [|intros [= <- <-]; exists []; split; [constructor | by rewrite app_nil_r]].
  destruct (updated_config (config self) d) as [c|e];
    [|intros [= <- <-]; exists []; split; [constructor | by rewrite app_nil_r]].
  destruct (self_save_path self) as [dir|].
  - destruct (save_config_run dir c t) as (p & Hp & ->).
    destruct (path_exists dir) eqn:Hex.
    + destruct (write_yaml c p) as [w|]; intros [= <- <-];
        exists (dir_events dir); (split; [apply dir_events_dir_event|]);
        [reflexivity|].
      split; [reflexivity|]. exists p. by split.
    + destruct (makedirs dir) as [w|].
      { intros [= <- <-]. eexists. split; [|reflexivity].
        repeat (constructor; try exact I). }
      destruct (write_yaml c p) as [w|]; intros [= <- <-];
        exists (dir_events dir); (split; [apply dir_events_dir_event|]);
        [reflexivity|].
      split; [reflexivity|]. exists p. by split.
  - cbv [save_config mret io_ret]. intros [= <- <-].
    exists []. split; [constructor | by split].
Qed.

(** *** fit, by its ways through *)

(** [scaler.inverse_transform(a)] when a target scaler was fitted, [a]
    itself otherwise. *)
Definition unscale (d : Data) (a : Arr) : Arr :=
  match target_scaler d with
  | Some s => inverse_transform s a
  | None => a
  end.

(** The object a completed [fit] leaves: the one
    [update_and_save_config] returned, with the trainer, the model after
    the training loop and the predictions. *)
Definition fitted (self1 : MolTrain) (d : Data) (tr : TrainerT)
    (m : NNModelT) : MolTrain :=
  {| yamlhandler := yamlhandler self1;
     self_save_path := self_save_path self1;
     config := config self1; data := data self1;
     trainer := Some tr; model := Some m;
     cv_pred := Some (unscale d (cv_pred_of m)) |}.

(** [metrics.calculate_classification_threshold(y_true, y_pred)] of
    line 200. *)
Definition threshold_of (d : Data) (tr : TrainerT) (m : NNModelT)
  : Threshold :=
  calculate_classification_threshold tr
    (unscale d (np_array (target d))) (unscale d (cv_pred_of m)).

(** Line 199: the task asks for a threshold. *)
Definition wants_threshold (c : gmap string PyVal) : bool :=
  py_in_strs (config_get c "task")
    ["classification"; "multilabel_classification"].

(** Lines 188 to 204 of [fit], from the object [self1] that
    [update_and_save_config] returned: the events of each way through
    them, and the result. *)
Inductive train_outcome (self1 : MolTrain) (d : Data)
  : list event → result MolTrain → Prop :=
| Trainer_raises (w : string) :
    Trainer_new (self_save_path self1) (config self1) = inl w →
    train_outcome self1 d [] (Raise (Collaborator w))
| NNModel_raises (tr : TrainerT) (w : string) :
    Trainer_new (self_save_path self1) (config self1) = inr tr →
    NNModel_new d tr (config self1) = inl w →
    train_outcome self1 d [TrainerBuilt] (Raise (Collaborator w))
| run_raises (tr : TrainerT) (m0 : NNModelT) (w : string) :
    Trainer_new (self_save_path self1) (config self1) = inr tr →
    NNModel_new d tr (config self1) = inr m0 →
    NNModel_run m0 = inl w →
    train_outcome self1 d [TrainerBuilt; NNModelBuilt; RunBegin]
      (Raise (Collaborator w))
| no_threshold (tr : TrainerT) (m0 m : NNModelT) :
    Trainer_new (self_save_path self1) (config self1) = inr tr →
    NNModel_new d tr (config self1) = inr m0 →
    NNModel_run m0 = inr m →
    wants_threshold (config self1) = false →
    train_outcome self1 d [TrainerBuilt; NNModelBuilt; RunBegin; RunEnd]
      (Ok (fitted self1 d tr m))
| join_raises (tr : TrainerT) (m0 m : NNModelT) (e : exn) :
    Trainer_new (self_save_path self1) (config self1) = inr tr →
    NNModel_new d tr (config self1) = inr m0 →
    NNModel_run m0 = inr m →
    wants_threshold (config self1) = true →
    os_path_join (self_save_path self1) "threshold.dat" = Raise e →
    train_outcome self1 d [TrainerBuilt; NNModelBuilt; RunBegin; RunEnd]
      (Raise e)
| dump_raises (tr : TrainerT) (m0 m : NNModelT) (p w : string) :
    Trainer_new (self_save_path self1) (config self1) = inr tr →
    NNModel_new d tr (config self1) = inr m0 →
    NNModel_run m0 = inr m →
    wants_threshold (config self1) = true →
    os_path_join (self_save_path self1) "threshold.dat" = Ok p →
    joblib_dump (threshold_of d tr m) p = inl w →
    train_outcome self1 d [TrainerBuilt; NNModelBuilt; RunBegin; RunEnd]
      (Raise (Collaborator w))
| threshold_dumped (tr : TrainerT) (m0 m : NNModelT) (p : string) :
    Trainer_new (self_save_path self1) (config self1) = inr tr →
    NNModel_new d tr (config self1) = inr m0 →
    NNModel_run m0 = inr m →
    wants_threshold (config self1) = true →
    os_path_join (self_save_path self1) "threshold.dat" = Ok p →
    joblib_dump (threshold_of d tr m) p = inr tt →
    train_outcome self1 d
      [TrainerBuilt; NNModelBuilt; RunBegin; RunEnd;
       JoblibDump (threshold_of d tr m) p]
      (Ok (fitted self1 d tr m)).

(** Closes [∃ post r, (t1 ++ evs, r0) = (t1 ++ post, r) ∧ _]. *)
Ltac fit_leaf :=
  eexists _, _; split;
  [ rewrite <- ?app_assoc; cbn [app]; reflexivity
  | econstructor; eassumption ].

(** Every run of [fit]: DataHub, then [update_and_save_config] on the
    object that holds the data, then one of the ways through the rest. *)
Lemma fit_cases (self : MolTrain) (input : PyData) (t : list event) :
  match DataHub_data input (self_save_path self) (config self) with
  | inl w => fit self input t = (t, Raise (Collaborator w))
  | inr d =>
      match update_and_save_config (with_data self d)
              (t ++ [DataHubBuilt]) with
      | (t1, Raise e) => fit self input t = (t1, Raise e)
      | (t1, Ok self1) =>
          ∃ post r, fit self input t = (t1 ++ post, r)
                    ∧ train_outcome self1 d post r
      end
  end.
Proof.
  unfold fit.
  cbv [mbind io_bind mret io_ret call lift emit collab].
  destruct (DataHub_data input (self_save_path self) (config self))
    as [w|d]; [reflexivity|].
  destruct (update_and_save_config (with_data self d) (t ++ [DataHubBuilt]))
    as [t1 [self1|e]]; [|reflexivity].
  cbn [self_save_path config with_trainer with_model].
  destruct (Trainer_new (self_save_path self1) (config self1))
    as [w|tr] eqn:Htr.
  { exists [], (Raise (Collaborator w)).
    split; [by rewrite app_nil_r | by constructor]. }
  destruct (NNModel_new d tr (config self1)) as [w|m0] eqn:Hm0; [fit_leaf|].
  destruct (NNModel_run m0) as [w|m] eqn:Hm; [fit_leaf|].
  fold (wants_threshold (config self1)).
  destruct (wants_threshold (config self1)) eqn:Hcls.
  - destruct (os_path_join (self_save_path self1) "threshold.dat")
      as [p|e] eqn:Hp; [|fit_leaf].
    fold (unscale d (np_array (target d))).
    fold (unscale d (cv_pred_of m)).
    fold (threshold_of d tr m).
    destruct (joblib_dump (threshold_of d tr m) p) as [w|[]] eqn:Hdump;
      [fit_leaf|].
    eexists _, _. split; [rewrite <- ?app_assoc; cbn [app]; reflexivity|].
    exact (threshold_dumped self1 d tr m0 m p Htr Hm0 Hm Hcls Hp Hdump).
  - eexists _, _. split; [rewrite <- ?app_assoc; cbn [app]; reflexivity|].
    exact (no_threshold self1 d tr m0 m Htr Hm0 Hm Hcls).
Qed.

(** The same, read from a run. *)
Lemma fit_inv (self : MolTrain) (input : PyData) (t t' : list event)
    (r : result MolTrain) :
  fit self input t = (t', r) →
  (∃ w, DataHub_data input (self_save_path self) (config self) = inl w
        ∧ t' = t ∧ r = Raise (Collaborator w))
  ∨ (∃ d e,
       DataHub_data input (self_save_path self) (config self) = inr d
       ∧ update_and_save_config (with_data self d) (t ++ [DataHubBuilt])
         = (t', Raise e)
       ∧ r = Raise e)
  ∨ (∃ d t1 self1 post,
       DataHub_data input (self_save_path self) (config self) = inr d
       ∧ update_and_save_config (with_data self d) (t ++ [DataHubBuilt])
         = (t1, Ok self1)
       ∧ t' = t1 ++ post
       ∧ train_outcome self1 d post r).
Proof.
  intros Hfit. pose proof (fit_cases self input t) as H.
  destruct (DataHub_data input (self_save_path self) (config self))
    as [w|d] eqn:Hdh.
  { left. exists w. rewrite H in Hfit. inversion Hfit. done. }
  right.
  destruct (update_and_save_config (with_data self d) (t ++ [DataHubBuilt]))
    as [t1 [self1|e]] eqn:Husc.
  - right. destruct H as (post & r' & H & Hout).
    rewrite H in Hfit. inversion Hfit; subst.
    exists d, t1, self1, post. done.
  - left. rewrite H in Hfit. inversion Hfit; subst.
    exists d, e. done.
Qed.

(** The ways through the training part, by their events. *)
Lemma train_outcome_shape (self1 : MolTrain) (d : Data)
    (post : list event) (r : result MolTrain) :
  train_outcome self1 d post r →
  (post `prefix_of` [TrainerBuilt; NNModelBuilt; RunBegin; RunEnd]
   ∨ ∃ v p, post = [TrainerBuilt; NNModelBuilt; RunBegin; RunEnd;
                    JoblibDump v p])
  ∧ Forall training_event post
  ∧ (∀ self', r = Ok self' →
       [TrainerBuilt; NNModelBuilt; RunBegin; RunEnd] `prefix_of` post)
  ∧ (∀ v p, JoblibDump v p ∈ post →
       (∃ self', r = Ok self') ∧ last post = Some (JoblibDump v p)).
Proof.
  intros H. destruct H.
  all: split; [first [ left; eexists; cbn [app]; reflexivity
                     | right; eauto ]|].
  all: split; [repeat (constructor; try exact I)|].
  all: split; [first [ discriminate
                     | intros; eexists; cbn [app]; reflexivity ]|].
  all: intros v q Hin.
  all: try (exfalso; not_in_list Hin).
  repeat (apply elem_of_cons in Hin as [Hin|Hin]; [discriminate|]).
  apply elem_of_cons in Hin as [Hin|Hin];
    [|by apply elem_of_nil in Hin].
  rewrite Hin. split; [eauto | reflexivity].
Qed.

(** A completed run of [fit], taken apart. *)
Lemma fit_Ok (self self' : MolTrain) (input : PyData) (t t' : list event) :
  fit self input t = (t', Ok self') →
  ∃ d t1 self1 tr m0 m,
    DataHub_data input (self_save_path self) (config self) = inr d
    ∧ update_and_save_config (with_data self d) (t ++ [DataHubBuilt])
      = (t1, Ok self1)
    ∧ Trainer_new (self_save_path self1) (config self1) = inr tr
    ∧ NNModel_new d tr (config self1) = inr m0
    ∧ NNModel_run m0 = inr m
    ∧ self' = fitted self1 d tr m
    ∧ if wants_threshold (config self1)
      then ∃ p, os_path_join (self_save_path self1) "threshold.dat" = Ok p
                ∧ t' = t1 ++ [TrainerBuilt; NNModelBuilt; RunBegin; RunEnd;
                              JoblibDump (threshold_of d tr m) p]
      else t' = t1 ++ [TrainerBuilt; NNModelBuilt; RunBegin; RunEnd].
Proof.
  intros [H|[H|H]]%fit_inv.
  - destruct H as (w & _ & _ & ?). discriminate.
  - destruct H as (d & e & _ & _ & ?). discriminate.
  - destruct H as (d & t1 & self1 & post & Hdh & Husc & -> & Hout).
    inversion Hout as [| | |tr m0 m Htr Hm0 Hm Hw|
                       |tr m0 m p w Htr Hm0 Hm Hw Hp Hd
                       |tr m0 m p Htr Hm0 Hm Hw Hp Hd]; subst;
      exists d, t1, self1, tr, m0, m; rewrite Hw;
      repeat (split; [assumption || reflexivity|]);
      [reflexivity | exists p; by split].
Qed.

(** Every run of [fit] from the empty trace: nothing at all when DataHub
    fails; else DataHub, log lines and the creation of the directory, the
    write of the config if [update_and_save_config] got that far, and
    then training events, which need an output directory to be written
    to, if there is one. *)
Lemma fit_phases (self : MolTrain) (input : PyData) (t' : list event)
    (r : result MolTrain) :
  fit self input [] = (t', r) →
  t' = []
  ∨ ∃ pre post,
      Forall dir_event pre ∧ Forall training_event post
      ∧ ((t' = DataHubBuilt :: pre ++ post
          ∧ (post ≠ [] → self_save_path self = None))
         ∨ ∃ dir p cfg,
             self_save_path self = Some dir
             ∧ os_path_join (Some dir) "config.yaml" = Ok p
             ∧ t' = DataHubBuilt :: pre ++ WriteYaml p cfg :: post).
Proof.
  intros [H|[H|H]]%fit_inv.
  - destruct H as (w & _ & -> & _). by left.
  - destruct H as (d & e & _ & Husc & _). right.
    apply update_and_save_config_trace in Husc as (pre & Hpre & ->).
    exists pre, []. split; [exact Hpre|]. split; [constructor|].
    left. split; [by rewrite app_nil_r | done].
  - destruct H as (d & t1 & self1 & post & _ & Husc & -> & Hout). right.
    apply update_and_save_config_trace in Husc as (pre & Hpre & Ht1).
    apply train_outcome_shape in Hout as (_ & Hpost & _ & _).
    exists pre, post. split; [exact Hpre|]. split; [exact Hpost|].
    cbn [self_save_path with_data] in Ht1.
    destruct (self_save_path self) as [dir|].
    + right. destruct Ht1 as (_ & p & Hp & ->).
      exists dir, p, (config self1). do 2 (split; [done|]).
      cbn [app]. by rewrite <- !app_assoc.
    + left. destruct Ht1 as [-> ->]. by split.
Qed.

(** [update_and_save_config] dumps no threshold. *)
Lemma update_and_save_config_no_dump (self : MolTrain) (t t' : list event)
    (r : result MolTrain) (v : Threshold) (p : string) :
  update_and_save_config self t = (t', r) →
  JoblibDump v p ∈ t' → JoblibDump v p ∈ t.
Proof.
  intros (pre & Hpre & H)%update_and_save_config_trace Hin.
  rewrite Forall_forall in Hpre.
  assert (JoblibDump v p ∉ pre) as Hnot by (intros Hp; exact (Hpre _ Hp)).
  destruct r as [self1|e].
  - destruct (self_save_path self) as [dir|].
    + destruct H as (_ & q & _ & ->).
      apply elem_of_app in Hin as [Hin|Hin]; [exact Hin|].
      apply elem_of_app in Hin as [Hin|Hin]; [done|].
      not_in_list Hin.
    + destruct H as [_ ->]. exact Hin.
  - subst t'. apply elem_of_app in Hin as [Hin|Hin]; [exact Hin | done].
Qed.

(** A completed run from the empty trace: where its data, trainer and
    model come from, its predictions, and its dumps. *)
Lemma fit_Ok_dumps (self self' : MolTrain) (input : PyData)
    (t' : list event) :
  fit self input [] = (t', Ok self') →
  ∃ d tr m0 m,
    DataHub_data input (self_save_path self) (config self) = inr d
    ∧ Trainer_new (self_save_path self') (config self') = inr tr
    ∧ NNModel_new d tr (config self') = inr m0
    ∧ NNModel_run m0 = inr m
    ∧ data self' = Some d ∧ trainer self' = Some tr ∧ model self' = Some m
    ∧ cv_pred self' = Some (unscale d (cv_pred_of m))
    ∧ if wants_threshold (config self)
      then ∃ p, os_path_join (self_save_path self) "threshold.dat" = Ok p
                ∧ ∀ v q, JoblibDump v q ∈ t'
                         ↔ v = threshold_of d tr m ∧ q = p
      else ∀ v q, JoblibDump v q ∉ t'.
Proof.
  intros (d & t1 & self1 & tr & m0 & m & Hdh & Husc & Htr & Hm0 & Hm & ->
          & Ht')%fit_Ok.
  exists d, tr, m0, m. cbn [self_save_path config data trainer model cv_pred
                            fitted].
  pose proof (update_and_save_config_keeps _ _ _ _ Husc)
    as (_ & Hsp1 & Hd1 & _ & _).
  pose proof (update_and_save_config_task _ _ _ _ Husc) as Htk1.
  cbn [self_save_path config data with_data] in Hsp1, Hd1, Htk1.
  do 4 (split; [assumption|]). split; [exact Hd1|].
  do 3 (split; [reflexivity|]).
  assert (∀ v q, JoblibDump v q ∉ t1) as Hno.
  { intros v q Hin.
    apply (update_and_save_config_no_dump _ _ _ _ _ _ Husc) in Hin.
    cbn [app] in Hin. not_in_list Hin. }
  unfold wants_threshold in *.
  rewrite (config_get_lookup (config self) (config self1) "task" Htk1)
    in Ht'.
  destruct (py_in_strs (config_get (config self) "task") _).
  - destruct Ht' as (p & Hp & ->). rewrite Hsp1 in Hp.
    exists p. split; [exact Hp|]. intros v q. split.
    + intros [Hin|Hin]%elem_of_app; [destruct (Hno _ _ Hin)|].
      repeat (apply elem_of_cons in Hin as [Hin|Hin]; [discriminate|]).
      apply elem_of_cons in Hin as [Hin|Hin];
        [|by apply elem_of_nil in Hin].
      injection Hin as -> ->. by split.
    + intros [-> ->]. apply elem_of_app. right. elem_here.
  - subst t'. intros v q [Hin|Hin]%elem_of_app; [destruct (Hno _ _ Hin)|].
    not_in_list Hin.
Qed.

(** C6, amended. In every run of [fit], completed or not, a write of the
    config stands right after DataHub has read the data, with nothing but
    log lines and the creation of the output directory in between, and
    nothing but the events of training after it: it comes before the
    start and before the end of the training loop. And when there is an
    output directory and the training loop is reached, config.yaml of
    that directory has been written by then. *)
Theorem config_written_before_training (self : MolTrain) (input : PyData)
    (t' : list event) (r : result MolTrain) :
  fit self input [] = (t', r) →
  (∀ i j p cfg,
     t' !! i = Some (WriteYaml p cfg) →
     t' !! j = Some RunBegin ∨ t' !! j = Some RunEnd →
     (i < j)%nat)
  ∧ (∀ j dir,
       t' !! j = Some RunBegin → self_save_path self = Some dir →
       ∃ i p cfg,
         (i < j)%nat ∧ os_path_join (Some dir) "config.yaml" = Ok p
         ∧ t' !! i = Some (WriteYaml p cfg))
  ∧ (∀ p cfg,
       WriteYaml p cfg ∈ t' →
       ∃ pre post,
         t' = DataHubBuilt :: pre ++ WriteYaml p cfg :: post
         ∧ Forall dir_event pre ∧ Forall training_event post).
Proof.
  intros [->|H]%fit_phases.
  { split; [|split].
    - intros i j p cfg Hi. by rewrite lookup_nil in Hi.
    - intros j dir Hj. by rewrite lookup_nil in Hj.
    - intros p cfg Hin. by apply elem_of_nil in Hin. }
  destruct H as (pre & post & Hpre & Hpost & [[-> Hnone]|H]).
  - assert (∀ p cfg, WriteYaml p cfg ∉ DataHubBuilt :: pre ++ post) as Hnw.
    { intros p cfg [Hin|Hin]%elem_of_cons; [discriminate|].
      rewrite Forall_forall in Hpre. rewrite Forall_forall in Hpost.
      apply elem_of_app in Hin as [Hin|Hin];
        [exact (Hpre _ Hin) | exact (Hpost _ Hin)]. }
    split; [|split].
    + intros i j p cfg Hi. destruct (Hnw p cfg).
      eapply list_elem_of_lookup_2, Hi.
    + intros j dir Hj Hdir.
      assert (post ≠ []) as Hpost'.
      { intros ->. rewrite app_nil_r in Hj.
        apply list_elem_of_lookup_2 in Hj.
        apply elem_of_cons in Hj as [?|Hj]; [discriminate|].
        rewrite Forall_forall in Hpre. exact (Hpre _ Hj). }
      rewrite (Hnone Hpost') in Hdir. discriminate.
    + intros p cfg Hin. destruct (Hnw _ _ Hin).
  - destruct H as (dir & p & cfg & Hdir & Hp & ->).
    set (setup := DataHubBuilt :: pre ++ [WriteYaml p cfg]).
    assert (DataHubBuilt :: pre ++ WriteYaml p cfg :: post = setup ++ post)
      as Hsplit.
    { unfold setup. cbn [app]. by rewrite <- app_assoc. }
    assert (Forall setup_event setup) as Hsetup.
    { unfold setup. constructor; [exact I|]. apply Forall_app. split.
      - eapply Forall_impl; [exact Hpre | apply dir_event_setup].
      - by repeat constructor. }
    assert (length setup = S (S (length pre))) as Hlen.
    { unfold setup. cbn [length]. rewrite length_app. cbn [length]. lia. }
    split; [|split].
    + rewrite Hsplit. intros i j q cfg' Hi [Hj|Hj];
        eapply (phases_ordered setup post i j) in Hj; eauto;
        try exact I; lia.
    + rewrite Hsplit. intros j dir' Hj Hdir'.
      assert (length setup ≤ j)%nat as Hle.
      { destruct (decide (length setup ≤ j)%nat) as [|Hlt]; [done|].
        rewrite lookup_app_l in Hj by lia.
        destruct (Forall_lookup_1 _ _ _ _ Hsetup Hj). }
      exists (S (length pre)), p, cfg.
      split; [lia|]. split; [congruence|].
      rewrite lookup_app_l by lia. unfold setup.
      apply (list_lookup_middle pre [] (WriteYaml p cfg)). reflexivity.
    + intros q cfg' [Hin|Hin]%elem_of_cons; [discriminate|].
      rewrite Forall_forall in Hpre. rewrite Forall_forall in Hpost.
      apply elem_of_app in Hin as [Hin|Hin]; [destruct (Hpre _ Hin)|].
      apply elem_of_cons in Hin as [Hin|Hin]; [|destruct (Hpost _ Hin)].
      injection Hin as -> ->.
      exists pre, post. split; [reflexivity|].
      split; by apply Forall_forall.
Qed.

(** C7. In every completed run of [fit], a threshold is dumped if and only
    if the config holds the task 'classification' or
    'multilabel_classification'; what is dumped then goes to threshold.dat
    in the save path. *)
Theorem threshold_dumped_iff_classification (self : MolTrain)
    (input : PyData) (t' : list event) (self' : MolTrain) :
  fit self input [] = (t', Ok self') →
  ((∃ v p, JoblibDump v p ∈ t')
   ↔ config self !! "task" = Some (PyStr "classification")
     ∨ config self !! "task" = Some (PyStr "multilabel_classification"))
  ∧ (∀ v p, JoblibDump v p ∈ t' →
       os_path_join (self_save_path self) "threshold.dat" = Ok p).
Proof.
  intros (d & tr & m0 & m & _ & _ & _ & _ & _ & _ & _ & _ & Hdump)
    %fit_Ok_dumps.
  rewrite <- task_in_classification. fold (wants_threshold (config self)).
  destruct (wants_threshold (config self)).
  - destruct Hdump as (p & Hp & Hdump). split.
    + split; [done|]. intros _. exists (threshold_of d tr m), p.
      by apply Hdump.
    + intros v q [_ ->]%Hdump. exact Hp.
  - split.
    + split; [|discriminate]. intros (v & p & Hin). destruct (Hdump _ _ Hin).
    + intros v p Hin. destruct (Hdump _ _ Hin).
Qed.

(** C8. In every completed run of [fit], the data the object holds is the
    data DataHub read, and its model is the one the training loop
    returned. When a target scaler was fitted on that data, the predictions
    exposed as cv_pred are the scaler's inverse transform of the
    predictions of that model, and a threshold that is dumped was computed
    from the inverse transforms of the true labels and of these
    predictions; without a scaler, cv_pred is the model's predictions as
    they are, and so are the arguments of the threshold. *)
Theorem fit_inverts_target_scaling (self : MolTrain) (input : PyData)
    (t' : list event) (self' : MolTrain) :
  fit self input [] = (t', Ok self') →
  ∃ d tr m0 m,
    DataHub_data input (self_save_path self) (config self) = inr d
    ∧ Trainer_new (self_save_path self') (config self') = inr tr
    ∧ NNModel_new d tr (config self') = inr m0
    ∧ NNModel_run m0 = inr m
    ∧ data self' = Some d ∧ trainer self' = Some tr ∧ model self' = Some m
    ∧ (∀ s, target_scaler d = Some s →
         cv_pred self' = Some (inverse_transform s (cv_pred_of m))
         ∧ ∀ v p, JoblibDump v p ∈ t' →
             v = calculate_classification_threshold tr
                   (inverse_transform s (np_array (target d)))
                   (inverse_transform s (cv_pred_of m)))
    ∧ (target_scaler d = None →
         cv_pred self' = Some (cv_pred_of m)
         ∧ ∀ v p, JoblibDump v p ∈ t' →
             v = calculate_classification_threshold tr
                   (np_array (target d)) (cv_pred_of m)).
Proof.
  intros (d & tr & m0 & m & Hdh & Htr & Hm0 & Hm & Hd & Htr' & Hm' & Hcv
          & Hdump)%fit_Ok_dumps.
  assert (∀ v p, JoblibDump v p ∈ t' → v = threshold_of d tr m) as Hv.
  { intros v p Hin. destruct (wants_threshold (config self)).
    - destruct Hdump as (q & _ & Hdump). by apply Hdump in Hin as [-> _].
    - destruct (Hdump _ _ Hin). }
  exists d, tr, m0, m. do 7 (split; [assumption|]).
  unfold threshold_of, unscale in Hcv, Hv. split.
  - intros s Hs. rewrite Hs in Hcv, Hv. split; [exact Hcv | exact Hv].
  - intros Hs. rewrite Hs in Hcv, Hv. split; [exact Hcv | exact Hv].
Qed.

End MolTrain.

(** *** A small world to run MolTrain in

    Arrays are lists of integers and a scaler is an offset; the output
    directory does not exist yet and every call into a collaborator
    succeeds; DataHub finds two labelled molecules and, when asked, a
    fitted scaler; the model predicts 3 and 4 on the scaled targets. *)
#[local] Instance sample_env : TrainEnv := {|
  Arr := list Z;
  Scaler := Z;
  Targets := list Z;
  Threshold := Z;
  TrainerT := unit;
  NNModelT := list Z;
  fmt_repr := fun v =>
    match v with
    | PyInt z => pretty z
    | PyNone => "None"
    | PyBool true => "True"
    | PyBool false => "False"
    | PyDict d => match map_to_list d with [] => "{}" | _ => "<value>" end
    | _ => "<value>"
    end;
  module_dir := "/site-packages/unimol_tools";
  read_yaml := fun _ => inr ∅;
  write_yaml := fun _ _ => inr tt;
  path_exists := fun _ => false;
  makedirs := fun _ => inr tt;
  joblib_dump := fun _ _ => inr tt;
  Trainer_new := fun _ _ => inr tt;
  calculate_classification_threshold := fun _ y_true y_pred =>
    (hd 0 y_true + hd 0 y_pred)%Z;
  np_array := fun targets => targets;
  inverse_transform := fun s a => map (Z.add s) a
|}.

#[local] Instance sample_calls (scaler : option Z) : TrainCalls := {|
  DataHub_data := fun _ _ _ =>
    inr {| target_scaler := scaler; target := [1; 0]%Z;
           num_classes := PyInt 2; data_target_cols := ["TARGET"];
           multiclass_cnt := None |};
  NNModel_new := fun _ _ _ => inr [];
  NNModel_run := fun _ => inr [3; 4]%Z;
  cv_pred_of := fun m => m
|}.

(** [MolTrain(task=task, save_path='./exp')], defaults elsewhere. *)
Definition sample_args (task : string) : MolTrainArgs :=
  MolTrainArgs_default (PyStr task) (Some "./exp") (PyBool false)
    (PyStr "filter").

Definition sample_constructed (task : string)
  : list event * result MolTrain :=
  MolTrain_init (sample_args task) [].

Definition sample_self (task : string) : MolTrain :=
  match (sample_constructed task).2 with
  | Ok self => self
  | Raise _ =>
      {| yamlhandler := ""; self_save_path := None; config := ∅;
         data := None; trainer := None; model := None; cv_pred := None |}
  end.

Definition sample_input : PyData := Builtin (PyStr "train.csv").

(** [clf.fit('train.csv')] *)
Definition sample_fit (task : string) (scaler : option Z)
  : list event * result MolTrain :=
  fit (calls := sample_calls scaler) (sample_self task) sample_input [].

Definition sample_fitted (task : string) (scaler : option Z) : MolTrain :=
  match (sample_fit task scaler).2 with
  | Ok self => self
  | Raise _ => sample_self task
  end.

Example sample_fit_events :
  map (fun e =>
         match e with
         | LogInfo _ => "log"
         | ReadYaml _ => "read_yaml"
         | DataHubBuilt => "DataHub"
         | Makedirs p => "makedirs " ++ p
         | WriteYaml p _ => "write_yaml " ++ p
         | TrainerBuilt => "Trainer"
         | NNModelBuilt => "NNModel"
         | RunBegin => "run begins"
         | RunEnd => "run ends"
         | JoblibDump v p => "dump " ++ pretty v ++ " " ++ p
         end)
      (sample_fit "classification" (Some 10%Z)).1
  = [ "DataHub"; "log"; "makedirs ./exp"; "write_yaml ./exp/config.yaml";
      "Trainer"; "NNModel"; "run begins"; "run ends";
      "dump 24 ./exp/threshold.dat" ].
Proof. vm_compute. reflexivity. Qed.

Example sample_fit_cv_pred :
  cv_pred (sample_fitted "classification" (Some 10%Z)) = Some [13; 14]%Z
  ∧ cv_pred (sample_fitted "regression" None) = Some [3; 4]%Z.
Proof. vm_compute. split; reflexivity. Qed.

Example sample_split_method :
  config (sample_fitted "regression" None) !! "split_method"
  = Some (PyStr "5fold_random").
Proof. vm_compute. reflexivity. Qed.

(** A config that lost its 'kfold' entry: reading the key gives an empty
    dict, and the split method is named after it. *)
Definition sample_no_kfold : MolTrain :=
  with_config (sample_self "regression")
    (delete "kfold" (config (sample_self "regression"))).

Example sample_split_method_no_kfold :
  match (fit (calls := sample_calls None) sample_no_kfold sample_input []).2
  with
  | Ok self' => config self' !! "split_method"
  | Raise _ => None
  end = Some (PyStr "{}fold_random").
Proof. vm_compute. reflexivity. Qed.

Example sample_fit_regression_events :
  map (fun e =>
         match e with
         | WriteYaml p _ => "write_yaml " ++ p
         | RunBegin => "run begins"
         | RunEnd => "run ends"
         | JoblibDump v p => "dump " ++ pretty v ++ " " ++ p
         | _ => "-"
         end)
      (sample_fit "regression" None).1
  = [ "-"; "-"; "-"; "write_yaml ./exp/config.yaml"; "-"; "-";
      "run begins"; "run ends" ].
Proof. vm_compute. reflexivity. Qed.

Lemma smi_strict_iff_filter_witness :
  ∃ b, config (sample_self "classification") !! "smi_strict"
       = Some (PyBool b)
       ∧ (b = true
          ↔ smiles_check (sample_args "classification") = PyStr "filter").
Proof.
  apply (smi_strict_iff_filter (sample_args "classification") []
           (sample_constructed "classification").1).
  vm_compute. reflexivity.
Defined.

Lemma threshold_dumped_iff_classification_witness :
  ((∃ v p, JoblibDump v p ∈ (sample_fit "classification" (Some 10%Z)).1)
   ↔ config (sample_self "classification") !! "task"
     = Some (PyStr "classification")
     ∨ config (sample_self "classification") !! "task"
       = Some (PyStr "multilabel_classification"))
  ∧ (∀ v p, JoblibDump v p ∈ (sample_fit "classification" (Some 10%Z)).1 →
       os_path_join (self_save_path (sample_self "classification"))
         "threshold.dat" = Ok p).
Proof.
  apply (threshold_dumped_iff_classification
           (calls := sample_calls (Some 10%Z))
           (sample_self "classification") sample_input _
           (sample_fitted "classification" (Some 10%Z))).
  vm_compute. reflexivity.
Defined.

(** The data of the sample run is what DataHub read, with the scaler 10;
    the model predicts 3 and 4; so cv_pred is 13 and 14, and the threshold
    is computed from 11 and 13. *)
Lemma fit_inverts_target_scaling_witness :
  cv_pred (sample_fitted "classification" (Some 10%Z)) = Some [13; 14]%Z
  ∧ ∀ v p,
      JoblibDump v p ∈ (sample_fit "classification" (Some 10%Z)).1 →
      v = 24%Z.
Proof.
  destruct (fit_inverts_target_scaling
              (calls := sample_calls (Some 10%Z))
              (sample_self "classification") sample_input
              (sample_fit "classification" (Some 10%Z)).1
              (sample_fitted "classification" (Some 10%Z)))
    as (d & tr & m0 & m & Hdh & _ & _ & Hm & _ & _ & _ & Hs & _).
  { vm_compute. reflexivity. }
  cbv [DataHub_data NNModel_run sample_calls] in Hdh, Hm.
  injection Hdh as <-. injection Hm as <-.
  exact (Hs 10%Z eq_refl).
Defined.

Lemma config_written_before_training_witness :
  (∀ i j p cfg,
     (sample_fit "classification" (Some 10%Z)).1 !! i
     = Some (WriteYaml p cfg) →
     (sample_fit "classification" (Some 10%Z)).1 !! j = Some RunBegin
     ∨ (sample_fit "classification" (Some 10%Z)).1 !! j = Some RunEnd →
     (i < j)%nat)
  ∧ (∀ j dir,
       (sample_fit "classification" (Some 10%Z)).1 !! j = Some RunBegin →
       self_save_path (sample_self "classification") = Some dir →
       ∃ i p cfg,
         (i < j)%nat ∧ os_path_join (Some dir) "config.yaml" = Ok p
         ∧ (sample_fit "classification" (Some 10%Z)).1 !! i
           = Some (WriteYaml p cfg))
  ∧ (∀ p cfg,
       WriteYaml p cfg ∈ (sample_fit "classification" (Some 10%Z)).1 →
       ∃ pre post,
         (sample_fit "classification" (Some 10%Z)).1
         = DataHubBuilt :: pre ++ WriteYaml p cfg :: post
         ∧ Forall dir_event pre ∧ Forall training_event post).
Proof.
  apply (config_written_before_training
           (calls := sample_calls (Some 10%Z))
           (sample_self "classification") sample_input _
           (sample_fit "classification" (Some 10%Z)).2).
  vm_compute. reflexivity.
Defined.

(** C6 as stated: each write of the config stands after the end of the
    training loop. *)
Definition written_after_training {env : TrainEnv} (t : list event) : Prop :=
  ∀ i p cfg, t !! i = Some (WriteYaml p cfg) →
    ∃ j, (j < i)%nat ∧ t !! j = Some RunEnd.

(** C6, as stated, fails: the sample run completes, and its config is
    written with no end of the training loop before it. *)
Lemma config_written_before_run_ends :
  (sample_fit "classification" (Some 10%Z)).2
  = Ok (sample_fitted "classification" (Some 10%Z))
  ∧ ¬ written_after_training (sample_fit "classification" (Some 10%Z)).1.
Proof.
  split; [vm_compute; reflexivity|].
  intros H.
  assert (∃ p cfg, (sample_fit "classification" (Some 10%Z)).1 !! 3%nat
                   = Some (WriteYaml p cfg)) as (p & cfg & Hw)
    by (vm_compute; eauto).
  destruct (H 3%nat p cfg Hw) as (j & Hj & Hrun).
  destruct j as [|[|[|j]]]; [vm_compute in Hrun; discriminate.. | lia].
Qed.

End TrainFacts.



(** * Further properties *)

(** ** PretrainConfig.validate: what passes, and which error is raised *)
Module PretrainCfgMore.
Import PretrainCfg PretrainCfgFacts.

(** The dataset-path test of [validate] passes. *)
Definition path_given (c : PretrainConfig) : Prop :=
  if String.eqb (data_type (dataset c)) "lmdb"
  then truthy_opt_str (train_lmdb (dataset c)) = true
  else truthy_opt_str (train_path (dataset c)) = true.

Lemma validate_path_not_given (c : PretrainConfig) :
  ¬ path_given c →
  validate c = Raise (ValueError msg_train_lmdb)
  ∨ validate c = Raise (ValueError msg_train_path).
Proof.
  unfold path_given. rewrite validate_unfold.
  destruct (String.eqb _ _); destruct (truthy_opt_str _); tauto.
Qed.

Lemma validate_path_given (c : PretrainConfig) :
  path_given c → validate c = validate_numbers c.
Proof.
  unfold path_given. rewrite validate_unfold.
  destruct (String.eqb _ _); destruct (truthy_opt_str _);
    (reflexivity || discriminate).
Qed.

Lemma path_given_dec (c : PretrainConfig) : path_given c ∨ ¬ path_given c.
Proof.
  unfold path_given.
  destruct (String.eqb _ _); destruct (truthy_opt_str _); auto.
Qed.

(** X1. [validate] returns without raising exactly when the dataset path
    of the selected kind is given, encoder_layers and batch_size are
    positive, and the test [lr <= 0] is false. *)
Theorem validate_ok_iff (c : PretrainConfig) :
  validate c = Ok tt
  ↔ path_given c
    ∧ (0 < encoder_layers (model c))%Z
    ∧ (0 < batch_size (training c))%Z
    ∧ PrimFloat.leb (lr (training c)) 0%float = false.
Proof.
  destruct (path_given_dec c) as [Hp|Hp].
  - rewrite (validate_path_given c Hp). unfold validate_numbers.
    destruct (Z.leb_spec (encoder_layers (model c)) 0);
      [split; [discriminate | intros (_ & ? & _); lia]|].
    destruct (Z.leb_spec (batch_size (training c)) 0);
      [split; [discriminate | intros (_ & _ & ? & _); lia]|].
    destruct (PrimFloat.leb (lr (training c)) 0);
      [split; [discriminate | intros (_ & _ & _ & ?); discriminate]|].
    tauto.
  - split; [|tauto].
    destruct (validate_path_not_given c Hp) as [-> | ->]; discriminate.
Qed.

(** X2. The tests are made in a fixed order and the first one that fails
    decides the error: the encoder_layers error needs the dataset path to
    be given, the batch_size error needs positive encoder_layers besides,
    and the learning-rate error a positive batch_size besides. *)
Theorem validate_first_failure (c : PretrainConfig) :
  (validate c = Raise (ValueError msg_encoder_layers)
   ↔ path_given c ∧ (encoder_layers (model c) ≤ 0)%Z)
  ∧ (validate c = Raise (ValueError msg_batch_size)
     ↔ path_given c ∧ (0 < encoder_layers (model c))%Z
       ∧ (batch_size (training c) ≤ 0)%Z)
  ∧ (validate c = Raise (ValueError msg_lr)
     ↔ path_given c ∧ (0 < encoder_layers (model c))%Z
       ∧ (0 < batch_size (training c))%Z
       ∧ PrimFloat.leb (lr (training c)) 0%float = true).
Proof.
  destruct (path_given_dec c) as [Hp|Hp].
  - rewrite (validate_path_given c Hp). unfold validate_numbers.
    destruct (Z.leb_spec (encoder_layers (model c)) 0).
    { repeat split; try discriminate; try tauto;
        try (intros (_ & ? & _); lia). }
    destruct (Z.leb_spec (batch_size (training c)) 0).
    { repeat split; try discriminate; try tauto;
        try (intros (_ & ?); lia); try (intros (_ & _ & ? & _); lia). }
    destruct (PrimFloat.leb (lr (training c)) 0) eqn:Hlr.
    { repeat split; try discriminate; try tauto;
        try (intros (_ & ?); lia); try (intros (_ & _ & ?); lia). }
    repeat split; try discriminate; try tauto;
      try (intros (_ & ?); lia); try (intros (_ & _ & ?); lia);
      try (intros (_ & _ & _ & ?); discriminate).
  - destruct (validate_path_not_given c Hp) as [-> | ->];
      repeat split; try discriminate; tauto.
Qed.

(** X3. A learning rate that is not a number passes: [nan <= 0] is false,
    so a config whose other tested fields are in order is accepted with
    [lr = nan]. *)
Theorem validate_accepts_nan_lr (c : PretrainConfig) :
  path_given c →
  (0 < encoder_layers (model c))%Z →
  (0 < batch_size (training c))%Z →
  lr (training c) = PrimFloat.nan →
  validate c = Ok tt.
Proof.
  intros Hp Hl Hb Hlr. rewrite (validate_path_given c Hp).
  unfold validate_numbers. rewrite Hlr.
  destruct (Z.leb_spec (encoder_layers (model c)) 0); [lia|].
  destruct (Z.leb_spec (batch_size (training c)) 0); [lia|].
  reflexivity.
Qed.

Lemma validate_accepts_nan_lr_witness :
  validate (sample_config 32 PrimFloat.nan 10) = Ok tt.
Proof.
  apply (validate_accepts_nan_lr (sample_config 32 PrimFloat.nan 10));
    [reflexivity | reflexivity | reflexivity | reflexivity].
Defined.

(** X4. [validate] reads five fields and nothing else: two configs with
    the same data_type, the same path of the kind data_type selects, and
    the same encoder_layers, batch_size and lr have the same outcome. The
    path of the other kind, the validation paths, the epoch count and all
    remaining fields make no difference. *)
Theorem validate_reads_five_fields (c c' : PretrainConfig) :
  data_type (dataset c) = data_type (dataset c') →
  (if String.eqb (data_type (dataset c)) "lmdb"
   then train_lmdb (dataset c) = train_lmdb (dataset c')
   else train_path (dataset c) = train_path (dataset c')) →
  encoder_layers (model c) = encoder_layers (model c') →
  batch_size (training c) = batch_size (training c') →
  lr (training c) = lr (training c') →
  validate c = validate c'.
Proof.
  intros Hk Hp Hl Hb Hr. rewrite !validate_unfold. unfold validate_numbers.
  rewrite <- Hk, <- Hl, <- Hb, <- Hr.
  destruct (String.eqb _ _); rewrite <- Hp; reflexivity.
Qed.

Lemma validate_reads_five_fields_witness :
  validate
    {| dataset := DatasetConfig_default (Some "a.lmdb") (Some "x.csv") "lmdb";
       model := ModelConfig_default 15;
       training := TrainingConfig_default 32 1e-4%float (-1) |}
  = validate
      {| dataset := DatasetConfig_default (Some "a.lmdb") None "lmdb";
         model := ModelConfig_default 15;
         training := TrainingConfig_default 32 1e-4%float 10 |}.
Proof.
  apply (validate_reads_five_fields
           {| dataset :=
                DatasetConfig_default (Some "a.lmdb") (Some "x.csv") "lmdb";
              model := ModelConfig_default 15;
              training := TrainingConfig_default 32 1e-4%float (-1) |}
           {| dataset := DatasetConfig_default (Some "a.lmdb") None "lmdb";
              model := ModelConfig_default 15;
              training := TrainingConfig_default 32 1e-4%float 10 |});
    reflexivity.
Defined.

(** [PretrainConfig()]: every field at its default. *)
Definition PretrainConfig_default : PretrainConfig :=
  {| dataset := DatasetConfig_default None None "lmdb";
     model := ModelConfig_default 15;
     training := TrainingConfig_default 32 1e-4%float 10 |}.

Definition set_dataset_paths (c : PretrainConfig) (kind : string)
    (lmdb path : option string) : PretrainConfig :=
  {| dataset :=
       {| train_lmdb := lmdb; train_path := path;
          valid_path := valid_path (dataset c); data_type := kind;
          smiles_column := smiles_column (dataset c);
          valid_lmdb := valid_lmdb (dataset c);
          dict_path := dict_path (dataset c);
          remove_hydrogen := remove_hydrogen (dataset c);
          max_atoms := max_atoms (dataset c);
          noise_type := noise_type (dataset c);
          noise := noise (dataset c);
          mask_prob := mask_prob (dataset c);
          leave_unmasked_prob := leave_unmasked_prob (dataset c);
          random_token_prob := random_token_prob (dataset c);
          unimol_style := unimol_style (dataset c);
          num_conformers := num_conformers (dataset c) |};
     model := model c;
     training := training c |}.

(** X5. The defaults alone do not validate, for want of train_lmdb; they
    do as soon as a non-empty train_lmdb is given, and for any other data
    kind as soon as a non-empty train_path is given. Giving the path of the
    wrong kind does not help. *)
Theorem validate_defaults (s kind : string) :
  s ≠ "" → kind ≠ "lmdb" →
  validate PretrainConfig_default = Raise (ValueError msg_train_lmdb)
  ∧ validate (set_dataset_paths PretrainConfig_default "lmdb" (Some s) None)
    = Ok tt
  ∧ validate (set_dataset_paths PretrainConfig_default kind None (Some s))
    = Ok tt
  ∧ validate (set_dataset_paths PretrainConfig_default "lmdb" None (Some s))
    = Raise (ValueError msg_train_lmdb)
  ∧ validate (set_dataset_paths PretrainConfig_default kind (Some s) None)
    = Raise (ValueError msg_train_path).
Proof.
  intros Hs Hk.
  apply String.eqb_neq in Hs, Hk.
  split; [reflexivity|].
  rewrite !validate_unfold. unfold validate_numbers.
  cbn [set_dataset_paths dataset model training data_type train_lmdb
       train_path truthy_opt_str PretrainConfig_default].
  rewrite Hs, Hk. repeat split.
Qed.

Lemma validate_defaults_witness :
  validate PretrainConfig_default = Raise (ValueError msg_train_lmdb)
  ∧ validate (set_dataset_paths PretrainConfig_default "lmdb"
                (Some "train.lmdb") None)
    = Ok tt
  ∧ validate (set_dataset_paths PretrainConfig_default "csv" None
                (Some "train.lmdb"))
    = Ok tt
  ∧ validate (set_dataset_paths PretrainConfig_default "lmdb" None
                (Some "train.lmdb"))
    = Raise (ValueError msg_train_lmdb)
  ∧ validate (set_dataset_paths PretrainConfig_default "csv"
                (Some "train.lmdb") None)
    = Raise (ValueError msg_train_path).
Proof.
  apply (validate_defaults "train.lmdb" "csv"); discriminate.
Defined.

End PretrainCfgMore.


(** ** MolDataset and UniMolRepr: bounds, empty inputs, what is kept *)
Module PredictorMore.
Import Predictor PredictorFacts.

(** *** Indexing *)

Lemma py_index_in_range {A : Type} (l : list A) (i : Z) :
  (- Z.of_nat (length l) ≤ i < Z.of_nat (length l))%Z →
  is_Some (py_index l i).
Proof.
  intros Hi. unfold py_index.
  destruct (Z.leb_spec 0 i).
  - apply lookup_lt_is_Some. lia.
  - destruct (Z.leb_spec (- Z.of_nat (length l)) i); [|lia].
    apply lookup_lt_is_Some. lia.
Qed.

Lemma py_index_out_of_range {A : Type} (l : list A) (i : Z) :
  ¬ (- Z.of_nat (length l) ≤ i < Z.of_nat (length l))%Z →
  py_index l i = None.
Proof.
  intros Hi. unfold py_index.
  destruct (Z.leb_spec 0 i).
  - apply lookup_ge_None. lia.
  - destruct (Z.leb_spec (- Z.of_nat (length l)) i); [lia|reflexivity].
Qed.

Lemma py_index_nonneg {A : Type} (l : list A) (i : nat) :
  py_index l (Z.of_nat i) = l !! i.
Proof.
  unfold py_index. destruct (Z.leb_spec 0 (Z.of_nat i)); [|lia].
  by rewrite Nat2Z.id.
Qed.

Lemma py_index_negative {A : Type} (l : list A) (k : nat) :
  (1 ≤ k ≤ length l)%nat →
  py_index l (- Z.of_nat k) = l !! (length l - k)%nat.
Proof.
  intros Hk. unfold py_index.
  destruct (Z.leb_spec 0 (- Z.of_nat k)); [lia|].
  destruct (Z.leb_spec (- Z.of_nat (length l)) (- Z.of_nat k)); [|lia].
  f_equal. lia.
Qed.

(** X6. A MolDataset built without labels can be read at exactly the
    indices Python allows for its data, from [-len] to [len - 1]: there an
    item comes back with the zero label, and every other index raises
    IndexError. An empty dataset cannot be read at all. *)
Theorem MolDataset_unlabelled_bounds {D : Type} (items : list D) (idx : Z) :
  ((- Z.of_nat (length items) ≤ idx < Z.of_nat (length items))%Z →
   ∃ d, MolDataset_getitem (MolDataset_init items None) idx
        = Ok (d, [0%float]))
  ∧ (¬ (- Z.of_nat (length items) ≤ idx < Z.of_nat (length items))%Z →
     MolDataset_getitem (MolDataset_init items None) idx = Raise IndexError)
  ∧ (items = [] →
     MolDataset_getitem (MolDataset_init items None) idx = Raise IndexError).
Proof.
  assert (Hout : ¬ (- Z.of_nat (length items) ≤ idx
                    < Z.of_nat (length items))%Z →
     MolDataset_getitem (MolDataset_init items None) idx = Raise IndexError).
  { intros Hi. unfold MolDataset_getitem. cbn [data MolDataset_init].
    by rewrite (py_index_out_of_range items idx Hi). }
  split; [|split; [exact Hout|]].
  - intros Hi. destruct (py_index_in_range items idx Hi) as [d Hd].
    exists d. unfold MolDataset_getitem, MolDataset_init, np_zeros.
    cbn [data label].
    by rewrite Hd, (py_index_replicate items idx d _ Hd).
  - intros ->. apply Hout. cbn [length]. lia.
Qed.

(** X7. When there are as many labels as data, a negative index [-k]
    reads the same item as [len - k]. *)
Theorem MolDataset_negative_index {D : Type} (ds : MolDataset D) (k : nat) :
  length (label ds) = length (data ds) →
  (1 ≤ k ≤ length (data ds))%nat →
  MolDataset_getitem ds (- Z.of_nat k)
  = MolDataset_getitem ds (Z.of_nat (length (data ds) - k)).
Proof.
  intros Hlen Hk. unfold MolDataset_getitem.
  rewrite !py_index_nonneg, !py_index_negative by lia.
  by rewrite Hlen.
Qed.

Lemma MolDataset_negative_index_witness :
  MolDataset_getitem
    (MolDataset_init ["CCO"; "CC"; "C"]
       (Some [[1%float]; [2%float]; [3%float]])) (- Z.of_nat 1)
  = MolDataset_getitem
      (MolDataset_init ["CCO"; "CC"; "C"]
         (Some [[1%float]; [2%float]; [3%float]]))
      (Z.of_nat (length (data (MolDataset_init ["CCO"; "CC"; "C"]
         (Some [[1%float]; [2%float]; [3%float]]))) - 1)).
Proof.
  apply (MolDataset_negative_index
           (MolDataset_init ["CCO"; "CC"; "C"]
              (Some [[1%float]; [2%float]; [3%float]])) 1);
    [reflexivity | simpl; lia].
Defined.

(** X8. The constructor does not compare the number of labels with the
    number of data: with fewer labels, the length is still that of the data,
    and the items past the last label raise IndexError when read. *)
Theorem MolDataset_fewer_labels {D : Type} (items : list D)
    (labels : list (list float)) (i : nat) :
  (length labels ≤ i < length items)%nat →
  MolDataset_len (MolDataset_init items (Some labels)) = length items
  ∧ MolDataset_getitem (MolDataset_init items (Some labels)) (Z.of_nat i)
    = Raise IndexError.
Proof.
  intros Hi. split; [reflexivity|].
  unfold MolDataset_getitem. cbn [data label MolDataset_init].
  rewrite !py_index_nonneg.
  destruct (lookup_lt_is_Some_2 items i) as [d ->]; [lia|].
  by rewrite (lookup_ge_None_2 labels i) by lia.
Qed.

Lemma MolDataset_fewer_labels_witness :
  MolDataset_len (MolDataset_init ["CCO"; "CC"] (Some [[1%float]]))
  = length ["CCO"; "CC"]
  ∧ MolDataset_getitem (MolDataset_init ["CCO"; "CC"] (Some [[1%float]]))
      (Z.of_nat 1)
    = Raise IndexError.
Proof.
  apply (MolDataset_fewer_labels ["CCO"; "CC"] [[1%float]] 1). simpl. lia.
Defined.

(** *** UniMolRepr *)
Section UniMolRepr.
Context {env : ReprEnv}.

Lemma result_Ok_inj {A : Type} (a b : A) : Ok a = Ok b → a = b.
Proof. intros H. inversion H. reflexivity. Qed.

(** X9. A model name that is not a str is no known name: the constructor
    raises ValueError for None, a number, a list and the like. *)
Theorem UniMolRepr_model_name_not_str
    (data_type batch_size remove_hs model_name model_size use_cuda use_ddp
     use_gpu save_path : PyVal) (kwargs : gmap string PyVal) :
  is_str model_name = false →
  UniMolRepr_init data_type batch_size remove_hs model_name model_size
    use_cuda use_ddp use_gpu save_path kwargs
  = Raise (ValueError ("Unknown model name: " ++ py_repr model_name)).
Proof.
  intros H. unfold UniMolRepr_init.
  destruct model_name; try discriminate; reflexivity.
Qed.

(** The keys of [self.params]. *)
Definition param_keys : list string :=
  [ "data_type"; "batch_size"; "remove_hs"; "model_name"; "model_size";
    "use_cuda"; "use_ddp"; "use_gpu"; "save_path" ].

(** What a constructor call that returns has built. *)
Lemma UniMolRepr_init_returns
    (data_type batch_size remove_hs model_name model_size use_cuda use_ddp
     use_gpu save_path : PyVal) (kwargs : gmap string PyVal)
    (self : UniMolRepr) :
  UniMolRepr_init data_type batch_size remove_hs model_name model_size
    use_cuda use_ddp use_gpu save_path kwargs = Ok self →
  trainer self = None
  ∧ params self =
      <["save_path" := save_path]>
      (<["use_gpu" := use_gpu]>
      (<["use_ddp" := use_ddp]>
      (<["use_cuda" := use_cuda]>
      (<["model_size" := model_size]>
      (<["model_name" := model_name]>
      (<["remove_hs" := remove_hs]>
      (<["batch_size" := batch_size]>
      (<["data_type" := data_type]> ∅)))))))).
Proof.
  unfold UniMolRepr_init.
  cbv [mbind mret result_bind result_ret collab].
  destruct (py_eq_str model_name "unimolv1").
  - destruct (UniMolModel 1 data_type remove_hs); [discriminate|].
    intros <-%result_Ok_inj. split; reflexivity.
  - destruct (py_eq_str model_name "unimolv2"); [|discriminate].
    destruct (UniMolV2Model 1 model_size); [discriminate|].
    intros <-%result_Ok_inj. split; reflexivity.
Qed.

(** X10. The object a constructor call returns keeps the nine named
    arguments under their own names in [params] and nothing else: no other
    key is there, whatever extra keyword arguments were passed; it has no
    trainer yet. *)
Theorem UniMolRepr_params
    (data_type batch_size remove_hs model_name model_size use_cuda use_ddp
     use_gpu save_path : PyVal) (kwargs : gmap string PyVal)
    (self : UniMolRepr) :
  UniMolRepr_init data_type batch_size remove_hs model_name model_size
    use_cuda use_ddp use_gpu save_path kwargs = Ok self →
  params self !! "data_type" = Some data_type
  ∧ params self !! "batch_size" = Some batch_size
  ∧ params self !! "remove_hs" = Some remove_hs
  ∧ params self !! "model_name" = Some model_name
  ∧ params self !! "model_size" = Some model_size
  ∧ params self !! "use_cuda" = Some use_cuda
  ∧ params self !! "use_ddp" = Some use_ddp
  ∧ params self !! "use_gpu" = Some use_gpu
  ∧ params self !! "save_path" = Some save_path
  ∧ (∀ k, k ∉ param_keys → params self !! k = None)
  ∧ trainer self = None.
Proof.
  intros [Htr ->]%UniMolRepr_init_returns.
  repeat (split; [by simplify_map_eq|]).
  split; [|exact Htr].
  intros k Hk. unfold param_keys in Hk.
  repeat (rewrite not_elem_of_cons in Hk; destruct Hk as [? Hk]).
  repeat (rewrite lookup_insert_ne by done). apply lookup_empty.
Qed.

(** The input check raises an assertion, an IndexError, a ValueError or
    what pandas raises, and never a KeyError: the lookup of the SMILES
    column comes after the assertion that it is there. *)
Lemma get_repr_input_no_KeyError (data : PyData) (k : string) :
  get_repr_input data ≠ Raise (KeyError k).
Proof.
  destruct data as [[| | | |s|l|d]|a|cls]; cbn [get_repr_input];
    try discriminate.
  - destruct (endswith s ".sdf"); [discriminate|].
    destruct (endswith s ".csv"); [|discriminate].
    cbv [mbind result_bind collab].
    destruct (read_csv s) as [?|df]; [discriminate|].
    destruct (df !! "SMILES"); simpl; discriminate.
  - destruct (py_index l (-1)) as [x|]; [|discriminate].
    cbv [mbind result_bind collab].
    destruct (is_str x); [|discriminate].
    cbn [py_assert]. destruct (np_array l); discriminate.
  - destruct (_ && _); discriminate.
  - destruct (py_index a 0) as [x|]; [|discriminate].
    destruct (is_str x); discriminate.
Qed.

(** X11. On an object the constructor returned, the two lookups that
    [get_repr] makes itself do not fail: it raises no KeyError for
    'model_name', which the constructor has put in [params], and none for
    'SMILES', the column of a CSV file being read only after the
    assertion that the file has it. Nothing is said of a KeyError from
    inside DataHub, Trainer or the model, nor of the one for the key
    'unimol_input' of DataHub's data. *)
Theorem get_repr_no_KeyError
    (data_type batch_size remove_hs model_name model_size use_cuda use_ddp
     use_gpu save_path : PyVal) (kwargs : gmap string PyVal)
    (self : UniMolRepr) (data : PyData)
    (return_atomic_reprs return_tensor : PyVal) :
  UniMolRepr_init data_type batch_size remove_hs model_name model_size
    use_cuda use_ddp use_gpu save_path kwargs = Ok self →
  get_repr self data return_atomic_reprs return_tensor
  ≠ Raise (KeyError "model_name")
  ∧ get_repr self data return_atomic_reprs return_tensor
    ≠ Raise (KeyError "SMILES").
Proof.
  intros [_ Hp]%UniMolRepr_init_returns.
  assert (Hname : params self !! "model_name" = Some model_name)
    by (rewrite Hp; by simplify_map_eq).
  clear Hp.
  destruct (get_repr_input data) as [data'|e] eqn:Hin.
  - unfold get_repr. rewrite Hin.
    cbv [mbind mret result_bind result_ret collab].
    destruct (DataHub_repr_data data' (params self)) as [?|hub];
      [split; discriminate|].
    destruct (hub !! "unimol_input"); [|split; discriminate].
    destruct (Trainer_repr (params self)); [split; discriminate|].
    cbn [params model]. rewrite Hname.
    destruct (inference _ _ _ _ _ _); split; discriminate.
  - rewrite (get_repr_raise _ _ _ _ _ Hin).
    split; intros [= ->];
      by apply (get_repr_input_no_KeyError data) in Hin.
Qed.

(** X12. A call of [get_repr] that returns leaves the device, the model
    and the parameters of the object as they were, and stores the trainer
    it has built from the parameters for this call, in place of any trainer
    of an earlier call. *)
Theorem get_repr_keeps_object (self self' : UniMolRepr) (data : PyData)
    (return_atomic_reprs return_tensor : PyVal) (out : ReprOutput) :
  get_repr self data return_atomic_reprs return_tensor = Ok (self', out) →
  device self' = device self
  ∧ model self' = model self
  ∧ params self' = params self
  ∧ ∃ tr, Trainer_repr (params self) = inr tr ∧ trainer self' = Some tr.
Proof.
  unfold get_repr.
  cbv [mbind mret result_bind result_ret collab].
  destruct (get_repr_input data) as [data'|]; [|discriminate].
  destruct (DataHub_repr_data data' (params self)) as [?|hub];
    [discriminate|].
  destruct (hub !! "unimol_input"); [|discriminate].
  destruct (Trainer_repr (params self)) as [|tr] eqn:Htr; [discriminate|].
  cbn [params model].
  destruct (params self !! "model_name"); [|discriminate].
  destruct (inference _ _ _ _ _ _); [discriminate|].
  intros [= <- _]. cbn [device model params trainer].
  do 3 (split; [reflexivity|]). exists tr. split; reflexivity.
Qed.

(** X13. What the input check hands on to DataHub is the path of an SDF
    file or a dict, each as it was passed, or an array: a list or a single
    SMILES string never reaches DataHub as such. *)
Theorem get_repr_input_forms (data data' : PyData) :
  get_repr_input data = Ok data' →
  (∃ s, data = Builtin (PyStr s) ∧ data' = data ∧ endswith s ".sdf" = true)
  ∨ (∃ d, data = Builtin (PyDict d) ∧ data' = data
          ∧ is_Some (d !! "atoms") ∧ is_Some (d !! "coordinates"))
  ∨ (∃ a, data' = NdArray a).
Proof.
  destruct data as [[| | | |s|l|d]|a|cls]; cbn [get_repr_input];
    try discriminate.
  - destruct (endswith s ".sdf") eqn:Hsdf.
    { intros [= <-]. left. eauto. }
    destruct (endswith s ".csv").
    + cbv [mbind mret result_bind result_ret collab].
      destruct (read_csv s) as [?|df]; [discriminate|].
      destruct (df !! "SMILES"); simpl; [|discriminate].
      intros [= <-]. right. right. eauto.
    + intros [= <-]. right. right. eauto.
  - destruct (py_index l (-1)) as [x|]; [|discriminate].
    cbv [mbind mret result_bind result_ret collab].
    destruct (is_str x); [|discriminate].
    cbn [py_assert]. destruct (np_array l) as [?|a]; [discriminate|].
    intros [= <-]. right. right. eauto.
  - destruct (d !! "atoms") eqn:Ha, (d !! "coordinates") eqn:Hc;
      simpl; try discriminate.
    intros [= <-]. right. left. exists d. eauto.
  - destruct (py_index a 0) as [x|]; [|discriminate].
    destruct (is_str x); [|discriminate].
    intros [= <-]. right. right. eauto.
Qed.

(** X14. An empty list and an empty array are not rejected as such: the
    check of their last or first element raises IndexError, before DataHub
    is called. *)
Theorem get_repr_empty (self : UniMolRepr)
    (return_atomic_reprs return_tensor : PyVal) :
  get_repr self (Builtin (PyList [])) return_atomic_reprs return_tensor
  = Raise IndexError
  ∧ get_repr self (NdArray []) return_atomic_reprs return_tensor
    = Raise IndexError.
Proof. split; apply get_repr_raise; reflexivity. Qed.

Lemma py_index_last {A : Type} (l : list A) (x : A) :
  py_index (l ++ [x])%list (-1) = Some x.
Proof.
  unfold py_index. rewrite length_app. cbn [length].
  destruct (Z.leb_spec 0 (-1)); [lia|].
  destruct (Z.leb_spec (- Z.of_nat (length l + 1)) (-1)); [|lia].
  replace (Z.to_nat (Z.of_nat (length l + 1) + -1)) with (length l + 0)%nat
    by lia.
  by rewrite lookup_app_r, Nat.add_comm, Nat.add_sub by lia.
Qed.

(** X15. Of a list only the last element is checked to be a str, and of
    an array only the first. A list whose last element is not a str fails
    the assertion, whatever stands before it; a list whose last element is
    a str passes it, and then the whole list goes through np.array: what
    is handed on is the array numpy makes of it, and numpy's error is the
    error of the call. An array passes as it is if and only if its first
    element is a str. *)
Theorem get_repr_input_one_element_checked (l : list PyVal) (x : PyVal) :
  get_repr_input (Builtin (PyList (l ++ [x])%list))
  = (if is_str x then
       match np_array (l ++ [x])%list with
       | inr a => Ok (NdArray a)
       | inl what => Raise (Collaborator what)
       end
     else Raise AssertionError)
  ∧ get_repr_input (NdArray (x :: l))
    = (if is_str x then Ok (NdArray (x :: l)) else Raise AssertionError).
Proof.
  split.
  - cbn [get_repr_input]. rewrite py_index_last.
    cbv [mbind mret result_bind result_ret collab].
    destruct (is_str x); [|reflexivity].
    cbn [py_assert]. destruct (np_array (l ++ [x])%list); reflexivity.
  - cbn [get_repr_input]. change (py_index (x :: l) 0) with (Some x).
    cbv beta iota. destruct (is_str x); reflexivity.
Qed.

End UniMolRepr.

Lemma UniMolRepr_model_name_not_str_witness :
  UniMolRepr_init (env := sample_repr_env) (PyStr "molecule") (PyInt 32)
    (PyBool false) PyNone (PyStr "84m") (PyBool true) (PyBool false)
    (PyStr "all") PyNone ∅
  = Raise (ValueError ("Unknown model name: "
                       ++ py_repr (ReprEnv := sample_repr_env) PyNone)).
Proof.
  apply (UniMolRepr_model_name_not_str (env := sample_repr_env)).
  reflexivity.
Defined.

(** [UniMolRepr(smiles_col='smi')] in the sample world. *)
Definition sample_repr : UniMolRepr (env := sample_repr_env) :=
  match
    UniMolRepr_init (env := sample_repr_env) (PyStr "molecule") (PyInt 32)
      (PyBool false) (PyStr "unimolv1") (PyStr "84m") (PyBool true)
      (PyBool false) (PyStr "all") PyNone {[ "smiles_col" := PyStr "smi" ]}
  with
  | Ok self => self
  | Raise _ => @Build_UniMolRepr sample_repr_env "" "" ∅ None
  end.

Lemma sample_repr_constructed :
  UniMolRepr_init (env := sample_repr_env) (PyStr "molecule") (PyInt 32)
    (PyBool false) (PyStr "unimolv1") (PyStr "84m") (PyBool true)
    (PyBool false) (PyStr "all") PyNone {[ "smiles_col" := PyStr "smi" ]}
  = Ok sample_repr.
Proof. reflexivity. Qed.

Lemma UniMolRepr_params_witness :
  params sample_repr !! "data_type" = Some (PyStr "molecule")
  ∧ params sample_repr !! "batch_size" = Some (PyInt 32)
  ∧ params sample_repr !! "remove_hs" = Some (PyBool false)
  ∧ params sample_repr !! "model_name" = Some (PyStr "unimolv1")
  ∧ params sample_repr !! "model_size" = Some (PyStr "84m")
  ∧ params sample_repr !! "use_cuda" = Some (PyBool true)
  ∧ params sample_repr !! "use_ddp" = Some (PyBool false)
  ∧ params sample_repr !! "use_gpu" = Some (PyStr "all")
  ∧ params sample_repr !! "save_path" = Some PyNone
  ∧ (∀ k, k ∉ param_keys → params sample_repr !! k = None)
  ∧ trainer sample_repr = None.
Proof.
  apply (UniMolRepr_params (env := sample_repr_env) _ _ _ _ _ _ _ _ _
           {[ "smiles_col" := PyStr "smi" ]}).
  reflexivity.
Defined.

Lemma get_repr_no_KeyError_witness :
  get_repr sample_repr (Builtin (PyStr "smi.csv")) (PyBool false)
    (PyBool false)
  ≠ Raise (KeyError "model_name")
  ∧ get_repr sample_repr (Builtin (PyStr "smi.csv")) (PyBool false)
      (PyBool false)
    ≠ Raise (KeyError "SMILES").
Proof.
  apply (get_repr_no_KeyError (env := sample_repr_env)
           (PyStr "molecule") (PyInt 32) (PyBool false) (PyStr "unimolv1")
           (PyStr "84m") (PyBool true) (PyBool false) (PyStr "all") PyNone
           {[ "smiles_col" := PyStr "smi" ]}).
  reflexivity.
Defined.

(** The object after [get_repr(['CCO', 'CC'])]. *)
Definition sample_repr_after : UniMolRepr (env := sample_repr_env) :=
  match
    get_repr sample_repr (Builtin (PyList [PyStr "CCO"; PyStr "CC"]))
      (PyBool false) (PyBool false)
  with
  | Ok (self', _) => self'
  | Raise _ => sample_repr
  end.

Lemma get_repr_keeps_object_witness :
  device sample_repr_after = device sample_repr
  ∧ model sample_repr_after = model sample_repr
  ∧ params sample_repr_after = params sample_repr
  ∧ ∃ tr, Trainer_repr (ReprEnv := sample_repr_env) (params sample_repr)
          = inr tr
          ∧ trainer sample_repr_after = Some tr.
Proof.
  apply (get_repr_keeps_object (env := sample_repr_env) sample_repr
           sample_repr_after (Builtin (PyList [PyStr "CCO"; PyStr "CC"]))
           (PyBool false) (PyBool false) 2%nat).
  reflexivity.
Defined.

Lemma get_repr_input_forms_witness :
  (∃ s, Builtin (PyList [PyStr "CCO"; PyStr "CC"]) = Builtin (PyStr s)
        ∧ NdArray [PyStr "CCO"; PyStr "CC"]
          = Builtin (PyList [PyStr "CCO"; PyStr "CC"])
        ∧ endswith s ".sdf" = true)
  ∨ (∃ d, Builtin (PyList [PyStr "CCO"; PyStr "CC"]) = Builtin (PyDict d)
          ∧ NdArray [PyStr "CCO"; PyStr "CC"]
            = Builtin (PyList [PyStr "CCO"; PyStr "CC"])
          ∧ is_Some (d !! "atoms") ∧ is_Some (d !! "coordinates"))
  ∨ (∃ a, NdArray [PyStr "CCO"; PyStr "CC"] = NdArray a).
Proof.
  apply (get_repr_input_forms (env := sample_repr_env)
           (Builtin (PyList [PyStr "CCO"; PyStr "CC"]))
           (NdArray [PyStr "CCO"; PyStr "CC"])).
  reflexivity.
Defined.

End PredictorMore.


(** ** MolTrain: the constructor, the saved config and the runs of fit *)
Module TrainMore.
Import Predictor Train TrainFacts.

(** *** Assignments to the config *)

Lemma last_assigned_absent (k : string) (kvs : list (string * PyVal))
    (before : option PyVal) :
  k ∉ kvs.*1 → last_assigned k kvs before = before.
Proof.
  revert before. induction kvs as [|[k' v'] rest IH]; intros before Hk;
    [reflexivity|].
  cbn [last_assigned fst snd]. cbn [fmap list_fmap fst] in Hk.
  apply not_elem_of_cons in Hk as [Hne Hk].
  destruct (String.eqb_spec k' k) as [->|_]; [done|].
  apply IH, Hk.
Qed.

Lemma last_assigned_once (k : string) (v : PyVal)
    (kvs : list (string * PyVal)) (before : option PyVal) :
  NoDup kvs.*1 → (k, v) ∈ kvs → last_assigned k kvs before = Some v.
Proof.
  revert before. induction kvs as [|[k' v'] rest IH]; intros before Hnd Hin.
  - by apply elem_of_nil in Hin.
  - cbn [fmap list_fmap fst] in Hnd. apply NoDup_cons in Hnd as [Hk' Hnd].
    cbn [last_assigned fst snd].
    apply elem_of_cons in Hin as [Heq|Hin].
    + injection Heq as <- <-. rewrite String.eqb_refl.
      by apply last_assigned_absent.
    + by apply IH.
Qed.

(** No key is assigned twice by [__init__]. *)
Lemma init_attrs_NoDup (a : MolTrainArgs) : NoDup (init_attrs a).*1.
Proof.
  change ((init_attrs a).*1) with
    ["task"; "data_type"; "epochs"; "learning_rate"; "batch_size";
     "patience"; "metrics"; "split"; "split_group_col"; "kfold";
     "remove_hs"; "smiles_col"; "target_cols"; "target_col_prefix";
     "anomaly_clean"; "smi_strict"; "target_normalize"; "max_norm";
     "use_cuda"; "use_amp"; "use_ddp"; "use_gpu"; "freeze_layers";
     "freeze_layers_reversed"; "load_model_dir"; "model_name";
     "model_size"; "conf_cache_level"].
  apply (bool_decide_unpack _). vm_compute. exact I.
Qed.

Section MolTrain.
Context {env : TrainEnv} {calls : TrainCalls}.
Local Open Scope list_scope.

(** *** The constructor *)

(** The YAML file [__init__] reads. *)
Definition config_path_of (a : MolTrainArgs) : result string :=
  match load_model_dir a with
  | Some dir => os_path_join (Some dir) "config.yaml"
  | None => os_path_join (Some module_dir) "config/default.yaml"
  end.

(** Every run of [__init__]: one read of the YAML file, announced in the
    log when the file is the one of a saved model. *)
Lemma MolTrain_init_run (a : MolTrainArgs) (t : list event) :
  ∃ p, config_path_of a = Ok p
    ∧ MolTrain_init a t
      = let t0 := match load_model_dir a with
                  | Some _ => t ++ [LogInfo ("Load config file from " ++ p)]
                  | None => t
                  end in
        match read_yaml p with
        | inl w => (t0, Raise (Collaborator w))
        | inr base =>
            (t0 ++ [ReadYaml p],
             Ok {| yamlhandler := p; self_save_path := save_path a;
                   config := set_attrs (init_attrs a) base;
                   data := None; trainer := None; model := None;
                   cv_pred := None |})
        end.
Proof.
  unfold MolTrain_init, config_path_of.
  cbv [mbind io_bind mret io_ret call lift emit logger_info collab].
  destruct (load_model_dir a) as [dir|].
  - destruct (os_path_join_Some dir "config.yaml") as [p Hp].
    exists p. split; [exact Hp|]. rewrite Hp. cbv zeta.
    destruct (read_yaml p); reflexivity.
  - destruct (os_path_join_Some module_dir "config/default.yaml") as [p Hp].
    exists p. split; [exact Hp|]. rewrite Hp. cbv zeta.
    destruct (read_yaml p); reflexivity.
Qed.

(** X16. The config of a constructed MolTrain is the content of the YAML
    file (config.yaml of load_model_dir when given, the packaged default
    otherwise) with every constructor argument written over it under its
    config key; a key of the file that no argument is stored under keeps
    the value of the file. *)
Theorem MolTrain_init_overrides_yaml (a : MolTrainArgs) (t t' : list event)
    (self : MolTrain) :
  MolTrain_init a t = (t', Ok self) →
  ∃ base,
    config_path_of a = Ok (yamlhandler self)
    ∧ read_yaml (yamlhandler self) = inr base
    ∧ (∀ k v, (k, v) ∈ init_attrs a → config self !! k = Some v)
    ∧ (∀ k, k ∉ (init_attrs a).*1 → config self !! k = base !! k).
Proof.
  destruct (MolTrain_init_run a t) as (p & Hp & ->). cbv zeta.
  destruct (read_yaml p) as [w|base] eqn:Hrd; [discriminate|].
  intros [_ <-]%io_ok_inv. cbn [yamlhandler config].
  exists base. split; [exact Hp|]. split; [exact Hrd|]. split.
  - intros k v Hin. rewrite set_attrs_lookup.
    apply last_assigned_once; [apply init_attrs_NoDup | exact Hin].
  - intros k Hk. rewrite set_attrs_lookup.
    by apply last_assigned_absent.
Qed.

(** X17. [__init__] checks none of its arguments: whether it returns
    depends on the YAML read alone, so two calls that name the same
    load_model_dir both return or both raise, whatever the task, the split
    or the other arguments are; and what it raises is what the read
    raised, with nothing recorded as read. *)
Theorem MolTrain_init_checks_nothing (a b : MolTrainArgs)
    (t : list event) :
  load_model_dir a = load_model_dir b →
  ((∃ self, (MolTrain_init a t).2 = Ok self)
   ↔ (∃ self, (MolTrain_init b t).2 = Ok self))
  ∧ (∀ e, (MolTrain_init a t).2 = Raise e →
       (∃ w, e = Collaborator w)
       ∧ (MolTrain_init b t).2 = Raise e
       ∧ ∀ p, ReadYaml p ∈ (MolTrain_init a t).1 → ReadYaml p ∈ t).
Proof.
  intros Hdir.
  destruct (MolTrain_init_run a t) as (p & Hp & ->).
  destruct (MolTrain_init_run b t) as (q & Hq & ->).
  unfold config_path_of in Hp, Hq. rewrite <- Hdir in Hq.
  rewrite Hp in Hq. apply Ok_inj in Hq as <-. cbv zeta.
  rewrite <- Hdir.
  destruct (read_yaml p) as [w|base]; cbn [fst snd].
  - split; [split; intros [? ?]; discriminate|].
    intros e He. injection He as <-.
    split; [eauto|]. split; [reflexivity|].
    intros q. destruct (load_model_dir a); [|done].
    rewrite elem_of_app.
    intros [?|Hin]; [done|].
    apply elem_of_cons in Hin as [?|Hin]; [discriminate|].
    by apply elem_of_nil in Hin.
  - split; [split; intros _; eauto | discriminate].
Qed.


(** *** update_and_save_config *)
(** *** update_and_save_config *)

(** X19. When [update_and_save_config] returns and there is an output
    directory, it has logged and done exactly this: created the directory
    if and only if it did not exist (an existing one is kept, with a
    warning), then written the config the object holds afterwards to
    config.yaml in it, once. Without an output directory it has done
    nothing outside the object. *)
Theorem update_and_save_config_saves (self self' : MolTrain)
    (t t' : list event) :
  update_and_save_config self t = (t', Ok self') →
  match self_save_path self with
  | None => t' = t
  | Some dir =>
      ∃ p, os_path_join (Some dir) "config.yaml" = Ok p
        ∧ t' = t
               ++ (if path_exists dir
                   then [LogInfo ("Output directory already exists: " ++ dir);
                         LogInfo
                           ("Warning: Overwrite output directory: " ++ dir)]
                   else [LogInfo ("Create output directory: " ++ dir);
                         Makedirs dir])
               ++ [WriteYaml p (config self')]
  end.
Proof.
  intros (pre & _ & H)%update_and_save_config_trace.
  destruct (self_save_path self) as [dir|].
  - destruct H as (-> & p & Hp & ->). exists p. split; [exact Hp|].
    reflexivity.
  - by destruct H.
Qed.

(** X20. When [update_and_save_config] returns, the config holds the
    number of classes and the comma-joined target columns of the data;
    split_method is what the config gives for kfold and for split, joined
    by 'fold_', a key the config lacks reading as an empty dict and not
    as an error; multiclass_cnt is the one of the data if the task is
    'multiclass' and as before otherwise; every other key, and every other
    attribute of the object, is as before. *)
Theorem update_and_save_config_entries (self self' : MolTrain)
    (t t' : list event) :
  update_and_save_config self t = (t', Ok self') →
  ∃ d,
    data self = Some d
    ∧ config self' !! "num_classes" = Some (num_classes d)
    ∧ config self' !! "target_cols"
      = Some (PyStr (String.concat "," (data_target_cols d)))
    ∧ config self' !! "split_method"
      = Some (PyStr (fmt (config_get (config self) "kfold") ++ "fold_"
                     ++ fmt (config_get (config self) "split")))
    ∧ config self' !! "multiclass_cnt"
      = (if py_eq_str (config_get (config self) "task") "multiclass"
         then multiclass_cnt d
         else config self !! "multiclass_cnt")
    ∧ (∀ k, k ∉ ["num_classes"; "target_cols"; "multiclass_cnt";
                 "split_method"] →
         config self' !! k = config self !! k)
    ∧ yamlhandler self' = yamlhandler self
    ∧ self_save_path self' = self_save_path self
    ∧ data self' = data self ∧ trainer self' = trainer self
    ∧ model self' = model self ∧ cv_pred self' = cv_pred self.
Proof.
  intros (d & c & Hd & Hc & _ & ->)%update_and_save_config_Ok.
  apply updated_config_Ok in Hc as (H1 & H2 & H3 & H4 & H5).
  exists d.
  cbn [config yamlhandler self_save_path data trainer model cv_pred
       with_config].
  repeat (split; [assumption || reflexivity|]). reflexivity.
Qed.

(** X21. An exception of [update_and_save_config] that does not come from
    creating the directory or writing the file is raised before anything
    is logged, created or written. *)
Theorem update_and_save_config_fails_early (self : MolTrain)
    (t t' : list event) (e : exn) :
  update_and_save_config self t = (t', Raise e) →
  (∀ w, e ≠ Collaborator w) →
  t' = t.
Proof.
  rewrite update_and_save_config_run. intros H Hne.
  destruct (data self) as [d|]; [|by injection H].
  destruct (updated_config (config self) d) as [c|]; [|by injection H].
  destruct (self_save_path self) as [dir|].
  - destruct (save_config_run dir c t) as (p & _ & Hrun).
    rewrite Hrun in H. cbv zeta in H.
    destruct (path_exists dir).
    + destruct (write_yaml c p) as [w|]; [|discriminate].
      injection H as _ <-. destruct (Hne w eq_refl).
    + destruct (makedirs dir) as [w|].
      { injection H as _ <-. destruct (Hne w eq_refl). }
      destruct (write_yaml c p) as [w|]; [|discriminate].
      injection H as _ <-. destruct (Hne w eq_refl).
  - discriminate.
Qed.


(** *** fit *)


(** *** fit *)

Lemma update_and_save_config_events (self : MolTrain) (t t' : list event)
    (r : result MolTrain) :
  update_and_save_config self t = (t', r) →
  ∃ evs, t' = t ++ evs ∧ Forall setup_event evs.
Proof.
  intros (pre & Hpre & H)%update_and_save_config_trace.
  assert (Forall setup_event pre) as Hsetup
    by (eapply Forall_impl; [exact Hpre | apply dir_event_setup]).
  destruct r as [self1|e].
  - destruct (self_save_path self) as [dir|].
    + destruct H as (_ & p & _ & ->).
      exists (pre ++ [WriteYaml p (config self1)]). split; [reflexivity|].
      apply Forall_app. split; [exact Hsetup | by repeat constructor].
    + destruct H as [_ ->]. exists [].
      split; [by rewrite app_nil_r | constructor].
  - exists pre. by split.
Qed.

(** The file a returning [update_and_save_config] has written. *)
Lemma update_and_save_config_written (self self1 : MolTrain)
    (t t1 : list event) :
  update_and_save_config self t = (t1, Ok self1) →
  ∀ dir, self_save_path self = Some dir →
    ∃ p, os_path_join (Some dir) "config.yaml" = Ok p
         ∧ WriteYaml p (config self1) ∈ t1.
Proof.
  intros (pre & _ & H)%update_and_save_config_trace dir Hdir.
  rewrite Hdir in H. destruct H as (_ & p & Hp & ->).
  exists p. split; [exact Hp|].
  rewrite !elem_of_app. right. right. apply list_elem_of_here.
Qed.

Lemma save_config_Raise (save_path : option string)
    (c : gmap string PyVal) (t t' : list event) (e : exn) :
  save_config save_path c t = (t', Raise e) →
  ∃ w dir, e = Collaborator w ∧ save_path = Some dir.
Proof.
  destruct save_path as [dir|]; [|discriminate].
  destruct (save_config_run dir c t) as (p & _ & ->). cbv zeta.
  destruct (path_exists dir).
  - destruct (write_yaml c p) as [w|]; [|discriminate].
    intros [= _ <-]. eauto.
  - destruct (makedirs dir) as [w|]; [intros [= _ <-]; eauto|].
    destruct (write_yaml c p) as [w|]; [|discriminate].
    intros [= _ <-]. eauto.
Qed.

(** A raising [update_and_save_config], taken apart. *)
Lemma update_and_save_config_Raise (self : MolTrain) (t t' : list event)
    (e : exn) :
  update_and_save_config self t = (t', Raise e) →
  (t' = t ∧ e = AttributeError "data" ∧ data self = None)
  ∨ (t' = t
     ∧ ∃ d, data self = Some d ∧ updated_config (config self) d = Raise e)
  ∨ (∃ w dir, e = Collaborator w ∧ self_save_path self = Some dir).
Proof.
  rewrite update_and_save_config_run.
  destruct (data self) as [d|];
    [|intros [= <- <-]; left; repeat split].
  destruct (updated_config (config self) d) as [c|e0] eqn:Hc.
  - destruct (save_config (self_save_path self) c t) as [t1 [[]|e1]] eqn:Hs;
      [discriminate|].
    intros [= <- <-]. right. right. by eapply save_config_Raise.
  - intros [= <- <-]. right. left. split; [reflexivity|]. by exists d.
Qed.

(** Without an output directory [update_and_save_config] touches nothing
    outside the object. *)
Lemma update_and_save_config_no_save_path (self : MolTrain)
    (t t' : list event) (r : result MolTrain) :
  self_save_path self = None →
  update_and_save_config self t = (t', r) → t' = t.
Proof.
  intros Hsp. rewrite update_and_save_config_run, Hsp.
  destruct (data self) as [d|]; [|by intros [= <- _]].
  destruct (updated_config (config self) d) as [c|e0];
    [|by intros [= <- _]].
  cbv [save_config mret io_ret]. by intros [= <- _].
Qed.

(** The ways through the training part, by their events. *)
(** X22. In every run of [fit], whether it returns or raises, all set-up
    (DataHub, the log, the output directory, config.yaml) comes before the
    Trainer is built; then the Trainer is built, the model is built, the
    training loop begins and ends, and a threshold may be dumped, each at
    most once and in this order, a run that fails stopping somewhere along
    this line; a run that returns has been through the whole training
    loop. *)
Theorem fit_trace_shape (self : MolTrain) (input : PyData)
    (t t' : list event) (r : result MolTrain) :
  fit self input t = (t', r) →
  ∃ setup training,
    t' = t ++ setup ++ training
    ∧ Forall setup_event setup
    ∧ (training `prefix_of` [TrainerBuilt; NNModelBuilt; RunBegin; RunEnd]
       ∨ ∃ v p, training = [TrainerBuilt; NNModelBuilt; RunBegin; RunEnd;
                            JoblibDump v p])
    ∧ (∀ self', r = Ok self' →
         [TrainerBuilt; NNModelBuilt; RunBegin; RunEnd]
           `prefix_of` training).
Proof.
  intros [H|[H|H]]%fit_inv.
  - destruct H as (w & _ & -> & ->). exists [], [].
    split; [by rewrite !app_nil_r|]. split; [constructor|].
    split; [left; apply prefix_nil | discriminate].
  - destruct H as (d & e & _ & Husc & ->).
    apply update_and_save_config_events in Husc as (evs & -> & Hevs).
    exists (DataHubBuilt :: evs), [].
    split; [by rewrite app_nil_r, <- app_assoc|].
    split; [by constructor|].
    split; [left; apply prefix_nil | discriminate].
  - destruct H as (d & t1 & self1 & post & _ & Husc & -> & Hout).
    apply update_and_save_config_events in Husc as (evs & -> & Hevs).
    apply train_outcome_shape in Hout as (Hshape & _ & Hok & _).
    exists (DataHubBuilt :: evs), post.
    split; [by rewrite <- !app_assoc|].
    split; [by constructor|]. split; assumption.
Qed.

(** X23. A threshold dump in the trace of a run of [fit] means the run
    returned, and the dump was the last thing it did: no run dumps a
    threshold and then fails, and none dumps before or during training. *)
Theorem fit_dump_is_last (self : MolTrain) (input : PyData)
    (t' : list event) (r : result MolTrain) (v : Threshold) (p : string) :
  fit self input [] = (t', r) →
  JoblibDump v p ∈ t' →
  (∃ self', r = Ok self') ∧ last t' = Some (JoblibDump v p).
Proof.
  intros [H|[H|H]]%fit_inv Hin.
  - destruct H as (w & _ & -> & _). by apply elem_of_nil in Hin.
  - destruct H as (d & e & _ & Husc & _).
    apply update_and_save_config_events in Husc as (evs & -> & Hevs).
    cbn [app] in Hin. apply elem_of_cons in Hin as [Hin|Hin];
      [discriminate|].
    rewrite Forall_forall in Hevs. destruct (Hevs _ Hin).
  - destruct H as (d & t1 & self1 & post & _ & Husc & -> & Hout).
    apply update_and_save_config_events in Husc as (evs & -> & Hevs).
    apply train_outcome_shape in Hout as (_ & _ & _ & Hdump).
    apply elem_of_app in Hin as [Hin|Hin].
    + cbn [app] in Hin. apply elem_of_cons in Hin as [Hin|Hin];
        [discriminate|].
      rewrite Forall_forall in Hevs. destruct (Hevs _ Hin).
    + destruct (Hdump v p Hin) as [Hok Hlast].
      split; [exact Hok|]. rewrite last_app, Hlast. reflexivity.
Qed.

Lemma train_outcome_no_save_path (self1 : MolTrain) (d : Data)
    (post : list event) (r : result MolTrain) :
  self_save_path self1 = None →
  train_outcome self1 d post r →
  post `prefix_of` [TrainerBuilt; NNModelBuilt; RunBegin; RunEnd]
  ∧ (wants_threshold (config self1) = true →
     (∀ self', r ≠ Ok self') ∧ (RunEnd ∈ post → r = Raise TypeError)).
Proof.
  intros Hsp H. destruct H.
  all: try match goal with
           | Hp : os_path_join (self_save_path _) _ = Ok _ |- _ =>
               rewrite Hsp in Hp; discriminate
           end.
  all: split; [eexists; cbn [app]; reflexivity|].
  all: intros Hcls'.
  all: try congruence.
  all: split; [discriminate|].
  all: try (intros Hin; exfalso; not_in_list Hin).
  intros _. f_equal.
  match goal with
  | Hp : os_path_join (self_save_path _) _ = Raise _ |- _ =>
      rewrite Hsp in Hp; by injection Hp
  end.
Qed.

(** X24. On an object without an output directory (save_path None),
    [fit] logs nothing, creates no directory and writes no file; and when
    the task is 'classification' or 'multilabel_classification' it never
    returns: once the training loop has ended, joining the missing
    directory with 'threshold.dat' raises TypeError. *)
Theorem fit_without_save_path (self : MolTrain) (input : PyData)
    (t' : list event) (r : result MolTrain) :
  self_save_path self = None →
  fit self input [] = (t', r) →
  t' `prefix_of`
    [DataHubBuilt; TrainerBuilt; NNModelBuilt; RunBegin; RunEnd]
  ∧ ∀ tk, config self !! "task" = Some tk →
      py_in_strs tk ["classification"; "multilabel_classification"] = true →
      (∀ self', r ≠ Ok self') ∧ (RunEnd ∈ t' → r = Raise TypeError).
Proof.
  intros Hsp [H|[H|H]]%fit_inv.
  - destruct H as (w & _ & -> & ->). split; [apply prefix_nil|].
    intros tk _ _. split; [discriminate|].
    intros Hin. by apply elem_of_nil in Hin.
  - destruct H as (d & e & _ & Husc & ->).
    apply update_and_save_config_no_save_path in Husc as ->; [|exact Hsp].
    split; [eexists; cbn [app]; reflexivity|].
    intros tk _ _. split; [discriminate|].
    intros Hin. exfalso. cbn [app] in Hin. not_in_list Hin.
  - destruct H as (d & t1 & self1 & post & _ & Husc & -> & Hout).
    pose proof (update_and_save_config_no_save_path (with_data self d)
                  _ _ _ Hsp Husc) as ->.
    pose proof (update_and_save_config_task _ _ _ _ Husc) as Htask.
    apply update_and_save_config_keeps in Husc as (_ & Hsp1 & _).
    cbn [self_save_path config with_data] in Hsp1, Htask.
    rewrite Hsp in Hsp1.
    destruct (train_outcome_no_save_path _ _ _ _ Hsp1 Hout)
      as [[k Hk] Hcls].
    split; [exists k; cbn [app]; by rewrite Hk|].
    intros tk Htk Hin.
    destruct Hcls as [Hno Hend].
    { unfold wants_threshold, config_get. by rewrite Htask, Htk. }
    split; [exact Hno|].
    intros HRunEnd. apply Hend. cbn [app] in HRunEnd.
    apply elem_of_cons in HRunEnd as [?|?]; [discriminate | assumption].
Qed.

(** X25. In a run of [fit] that returns, DataHub was built from the config
    as it stood before, while the Trainer and the model were built from
    the config after [update_and_save_config], which is the config the
    object holds in the end and, when there is an output directory, the
    one written to its config.yaml; the model the object holds is what the
    training loop left of the model built. *)
Theorem fit_builds_from_updated_config (self self' : MolTrain)
    (input : PyData) (t t' : list event) :
  fit self input t = (t', Ok self') →
  ∃ d tr m0 m,
    DataHub_data input (self_save_path self) (config self) = inr d
    ∧ Trainer_new (self_save_path self) (config self') = inr tr
    ∧ NNModel_new d tr (config self') = inr m0
    ∧ NNModel_run m0 = inr m
    ∧ data self' = Some d ∧ trainer self' = Some tr ∧ model self' = Some m
    ∧ config self' !! "num_classes" = Some (num_classes d)
    ∧ yamlhandler self' = yamlhandler self
    ∧ self_save_path self' = self_save_path self
    ∧ ∀ dir, self_save_path self = Some dir →
        ∃ p, os_path_join (Some dir) "config.yaml" = Ok p
             ∧ WriteYaml p (config self') ∈ t'.
Proof.
  intros (d & t1 & self1 & tr & m0 & m & Hdh & Husc & Htr & Hm0 & Hm & ->
          & Ht')%fit_Ok.
  pose proof (update_and_save_config_written _ _ _ _ Husc) as Hw.
  pose proof (update_and_save_config_keeps _ _ _ _ Husc)
    as (Hy1 & Hsp1 & Hd1 & _ & _).
  apply update_and_save_config_Ok in Husc
    as (d' & c & Hd' & Hc & _ & Hself1).
  cbn [data with_data] in Hd'. apply (inj Some) in Hd'. subst d'.
  apply updated_config_Ok in Hc as (Hnum & _).
  assert (config self1 = c) as Hc1 by (by subst self1).
  clear Hself1. rewrite <- Hc1 in Hnum. clear Hc1 c.
  cbn [self_save_path yamlhandler data with_data] in Hw, Hy1, Hsp1, Hd1.
  rewrite Hsp1 in Htr.
  exists d, tr, m0, m.
  cbn [config data trainer model yamlhandler self_save_path fitted].
  repeat (split; [assumption || reflexivity|]).
  intros dir Hdir. destruct (Hw dir Hdir) as (q & Hq & Hin).
  exists q. split; [exact Hq|].
  assert (∃ post, t' = t1 ++ post) as [post ->].
  { destruct (wants_threshold (config self1));
      [destruct Ht' as (p & _ & ->)|]; eauto. }
  apply elem_of_app. by left.
Qed.

Lemma last_after_run (t1 : list event) :
  last (t1 ++ [TrainerBuilt; NNModelBuilt; RunBegin; RunEnd]) = Some RunEnd.
Proof. rewrite last_app. reflexivity. Qed.

Lemma init_attrs_lookup (a : MolTrainArgs) (base : gmap string PyVal)
    (k : string) (v : PyVal) :
  (k, v) ∈ init_attrs a → set_attrs (init_attrs a) base !! k = Some v.
Proof.
  intros Hin. rewrite set_attrs_lookup.
  apply last_assigned_once; [apply init_attrs_NoDup | exact Hin].
Qed.

(** X27. On an object that the constructor returned, [fit] finds every
    config key it looks up: the only exceptions it can raise, besides
    those of its collaborators, are the KeyError for a multiclass count
    that the data lacks, with the task 'multiclass', and the TypeError of
    save_path None with a classification task. *)
Theorem constructed_fit_raises (a : MolTrainArgs) (t0 t1 : list event)
    (self : MolTrain) (input : PyData) (t t' : list event) (e : exn) :
  MolTrain_init a t0 = (t1, Ok self) →
  fit self input t = (t', Raise e) →
  (∃ w, e = Collaborator w)
  ∨ (e = KeyError "multiclass_cnt" ∧ task a = PyStr "multiclass"
     ∧ t' = t ++ [DataHubBuilt])
  ∨ (e = TypeError ∧ save_path a = None
     ∧ (task a = PyStr "classification"
        ∨ task a = PyStr "multilabel_classification")
     ∧ last t' = Some RunEnd).
Proof.
  intros [Hsp [base Hcfg]]%MolTrain_init_config Hfit.
  assert (config self !! "task" = Some (task a)) as Htask
    by (rewrite Hcfg; apply init_attrs_lookup; elem_here).
  clear Hcfg.
  apply fit_inv in Hfit as [H|[H|H]].
  - destruct H as (w & _ & _ & [= ->]). left. eauto.
  - destruct H as (d & e' & _ & Husc & [= <-]).
    apply update_and_save_config_Raise in Husc as [H|[H|H]].
    + destruct H as (_ & _ & ?). discriminate.
    + destruct H as (-> & d' & _ & Hc). cbn [config with_data] in Hc.
      apply updated_config_Raise in Hc as (-> & Hc & _).
      right. left. rewrite Htask in Hc. apply (inj Some) in Hc.
      by repeat split.
    + destruct H as (w & dir & -> & _). left. eauto.
  - destruct H as (d & t2 & self1 & post & _ & Husc & -> & Hout).
    pose proof (update_and_save_config_task _ _ _ _ Husc) as Htk1.
    apply update_and_save_config_keeps in Husc as (_ & Hsp1 & _).
    cbn [self_save_path config with_data] in Hsp1, Htk1.
    inversion Hout; subst; try (left; eauto; fail).
    match goal with
    | Hp : os_path_join _ _ = Raise _ |- _ =>
        apply os_path_join_Raise in Hp as [Hnone ->]
    end.
    right. right. split; [reflexivity|].
    split; [congruence|].
    split; [|apply last_after_run].
    match goal with
    | Hw : wants_threshold _ = true |- _ =>
        unfold wants_threshold in Hw;
        apply task_in_classification in Hw;
        rewrite Htk1, Htask in Hw;
        destruct Hw as [Hw|Hw]; apply (inj Some) in Hw; auto
    end.
Qed.

(** The keys [update_and_save_config] sets are not keys of constructor
    arguments, target_cols apart. *)
Lemma init_attrs_not_updated (a : MolTrainArgs) (k : string) :
  k ∈ (init_attrs a).*1 → k ≠ "target_cols" →
  k ∉ ["num_classes"; "target_cols"; "multiclass_cnt"; "split_method"].
Proof.
  change ((init_attrs a).*1) with
    ["task"; "data_type"; "epochs"; "learning_rate"; "batch_size";
     "patience"; "metrics"; "split"; "split_group_col"; "kfold";
     "remove_hs"; "smiles_col"; "target_cols"; "target_col_prefix";
     "anomaly_clean"; "smi_strict"; "target_normalize"; "max_norm";
     "use_cuda"; "use_amp"; "use_ddp"; "use_gpu"; "freeze_layers";
     "freeze_layers_reversed"; "load_model_dir"; "model_name";
     "model_size"; "conf_cache_level"].
  intros Hin Hne Hk.
  repeat (apply elem_of_cons in Hk as [Hk|Hk];
          [subst k; first [ done | not_in_list Hin ]|]).
  by apply elem_of_nil in Hk.
Qed.

(** X28. When [fit] returns on an object that the constructor returned,
    the config still holds every constructor argument under its key,
    target_cols apart (the columns found in the data replace it);
    split_method is made of the constructor's kfold and split; and the
    output directory is the constructor's save_path. *)
Theorem constructed_fit_keeps_arguments (a : MolTrainArgs)
    (t0 t1 : list event) (self self' : MolTrain) (input : PyData)
    (t t' : list event) :
  MolTrain_init a t0 = (t1, Ok self) →
  fit self input t = (t', Ok self') →
  (∀ k v, (k, v) ∈ init_attrs a → k ≠ "target_cols" →
     config self' !! k = Some v)
  ∧ config self' !! "split_method"
    = Some (PyStr (fmt (kfold a) ++ "fold_" ++ fmt (split a)))
  ∧ self_save_path self' = save_path a.
Proof.
  intros [Hsp [base Hcfg]]%MolTrain_init_config Hfit.
  apply fit_Ok in Hfit
    as (d & t2 & self1 & tr & m0 & m & _ & Husc & _ & _ & _ & -> & _).
  apply update_and_save_config_keeps in Husc
    as (_ & Hsp1 & _ & Hsm & Hkeep).
  cbn [self_save_path config with_data] in Hsp1, Hsm, Hkeep.
  cbn [self_save_path config fitted].
  split; [|split].
  - intros k v Hin Hne. rewrite Hkeep, Hcfg.
    + by apply init_attrs_lookup.
    + apply init_attrs_not_updated with (a := a); [|exact Hne].
      apply (list_elem_of_fmap_2 fst) in Hin. exact Hin.
  - rewrite Hsm. unfold config_get. rewrite Hcfg.
    rewrite (init_attrs_lookup a base "kfold" (kfold a)) by elem_here.
    rewrite (init_attrs_lookup a base "split" (split a)) by elem_here.
    reflexivity.
  - by rewrite Hsp1.
Qed.

End MolTrain.


(** *** Runs in the small world *)

#[local] Existing Instance sample_env.

(** The data DataHub finds in the small world, without a scaler. *)
Definition sample_data : Data :=
  {| target_scaler := None; target := [1; 0]%Z; num_classes := PyInt 2;
     data_target_cols := ["TARGET"]; multiclass_cnt := None |}.

(** The constructed object once [fit] has stored the data. *)
Definition sample_loaded : MolTrain :=
  with_data (sample_self "classification") sample_data.

Definition sample_saved : MolTrain :=
  match (update_and_save_config sample_loaded []).2 with
  | Ok self => self
  | Raise _ => sample_loaded
  end.

(** [MolTrain(task='classification', save_path=None)] *)
Definition unsaved_args : MolTrainArgs :=
  MolTrainArgs_default (PyStr "classification") None (PyBool false)
    (PyStr "filter").

Definition sample_unsaved : MolTrain :=
  match (MolTrain_init unsaved_args []).2 with
  | Ok self => self
  | Raise _ => sample_self "classification"
  end.

Definition unsaved_fit : list event * result MolTrain :=
  fit (calls := sample_calls None) sample_unsaved sample_input [].

Example unsaved_fit_run :
  unsaved_fit
  = ([DataHubBuilt; TrainerBuilt; NNModelBuilt; RunBegin; RunEnd],
     Raise TypeError).
Proof. vm_compute. reflexivity. Qed.

Lemma MolTrain_init_overrides_yaml_witness :
  ∃ base,
    config_path_of (sample_args "classification")
    = Ok (yamlhandler (sample_self "classification"))
    ∧ read_yaml (yamlhandler (sample_self "classification")) = inr base
    ∧ (∀ k v, (k, v) ∈ init_attrs (sample_args "classification") →
         config (sample_self "classification") !! k = Some v)
    ∧ (∀ k, k ∉ (init_attrs (sample_args "classification")).*1 →
         config (sample_self "classification") !! k = base !! k).
Proof.
  apply (MolTrain_init_overrides_yaml (sample_args "classification") []
           (sample_constructed "classification").1).
  vm_compute. reflexivity.
Defined.

Lemma MolTrain_init_checks_nothing_witness :
  ((∃ self, (MolTrain_init (sample_args "classification") []).2 = Ok self)
   ↔ (∃ self, (MolTrain_init (sample_args "no such task") []).2 = Ok self))
  ∧ (∀ e, (MolTrain_init (sample_args "classification") []).2 = Raise e →
       (∃ w, e = Collaborator w)
       ∧ (MolTrain_init (sample_args "no such task") []).2 = Raise e
       ∧ ∀ p, ReadYaml p
              ∈ (MolTrain_init (sample_args "classification") []).1 →
           ReadYaml p ∈ []).
Proof.
  apply (MolTrain_init_checks_nothing (sample_args "classification")
           (sample_args "no such task") []).
  reflexivity.
Defined.


Lemma update_and_save_config_saves_witness :
  match self_save_path sample_loaded with
  | None => (update_and_save_config sample_loaded []).1 = []
  | Some dir =>
      ∃ p, os_path_join (Some dir) "config.yaml" = Ok p
        ∧ (update_and_save_config sample_loaded []).1
          = ([]
             ++ (if path_exists dir
                 then [LogInfo ("Output directory already exists: " ++ dir);
                       LogInfo
                         ("Warning: Overwrite output directory: " ++ dir)]
                 else [LogInfo ("Create output directory: " ++ dir);
                       Makedirs dir])
             ++ [WriteYaml p (config sample_saved)])%list
  end.
Proof.
  apply (update_and_save_config_saves sample_loaded sample_saved []).
  vm_compute. reflexivity.
Defined.

Lemma update_and_save_config_entries_witness :
  ∃ d,
    data sample_loaded = Some d
    ∧ config sample_saved !! "num_classes" = Some (num_classes d)
    ∧ config sample_saved !! "target_cols"
      = Some (PyStr (String.concat "," (data_target_cols d)))
    ∧ config sample_saved !! "split_method"
      = Some (PyStr (fmt (config_get (config sample_loaded) "kfold")
                     ++ "fold_"
                     ++ fmt (config_get (config sample_loaded) "split")))
    ∧ config sample_saved !! "multiclass_cnt"
      = (if py_eq_str (config_get (config sample_loaded) "task")
              "multiclass"
         then multiclass_cnt d
         else config sample_loaded !! "multiclass_cnt")
    ∧ (∀ k, k ∉ ["num_classes"; "target_cols"; "multiclass_cnt";
                 "split_method"] →
         config sample_saved !! k = config sample_loaded !! k)
    ∧ yamlhandler sample_saved = yamlhandler sample_loaded
    ∧ self_save_path sample_saved = self_save_path sample_loaded
    ∧ data sample_saved = data sample_loaded
    ∧ trainer sample_saved = trainer sample_loaded
    ∧ model sample_saved = model sample_loaded
    ∧ cv_pred sample_saved = cv_pred sample_loaded.
Proof.
  apply (update_and_save_config_entries sample_loaded sample_saved []
           (update_and_save_config sample_loaded []).1).
  vm_compute. reflexivity.
Defined.

(** [update_and_save_config] called before [fit]: there is no data yet. *)
Lemma update_and_save_config_fails_early_witness :
  update_and_save_config (sample_self "classification") [DataHubBuilt]
  = ([DataHubBuilt], Raise (AttributeError "data"))
  ∧ [DataHubBuilt] = [DataHubBuilt] :> list event.
Proof.
  assert (update_and_save_config (sample_self "classification")
            [DataHubBuilt]
          = ([DataHubBuilt], Raise (AttributeError "data"))) as Hrun
    by (vm_compute; reflexivity).
  split; [exact Hrun|].
  apply (update_and_save_config_fails_early (sample_self "classification")
           [DataHubBuilt] [DataHubBuilt] (AttributeError "data") Hrun).
  intros w. discriminate.
Defined.

Lemma fit_trace_shape_witness :
  ∃ setup training,
    (sample_fit "classification" (Some 10%Z)).1
    = ([] ++ setup ++ training)%list
    ∧ Forall setup_event setup
    ∧ (training `prefix_of` [TrainerBuilt; NNModelBuilt; RunBegin; RunEnd]
       ∨ ∃ v p, training = [TrainerBuilt; NNModelBuilt; RunBegin; RunEnd;
                            JoblibDump v p])
    ∧ (∀ self', (sample_fit "classification" (Some 10%Z)).2 = Ok self' →
         [TrainerBuilt; NNModelBuilt; RunBegin; RunEnd]
           `prefix_of` training).
Proof.
  apply (fit_trace_shape (calls := sample_calls (Some 10%Z))
           (sample_self "classification") sample_input []).
  vm_compute. reflexivity.
Defined.

Lemma fit_dump_is_last_witness :
  (∃ self', (sample_fit "classification" (Some 10%Z)).2 = Ok self')
  ∧ last (sample_fit "classification" (Some 10%Z)).1
    = Some (JoblibDump (24%Z : Threshold) "./exp/threshold.dat").
Proof.
  apply (fit_dump_is_last (calls := sample_calls (Some 10%Z))
           (sample_self "classification") sample_input).
  - vm_compute. reflexivity.
  - vm_compute. repeat constructor.
Defined.

Lemma fit_without_save_path_witness :
  unsaved_fit.1
    `prefix_of` [DataHubBuilt; TrainerBuilt; NNModelBuilt; RunBegin; RunEnd]
  ∧ ∀ tk, config sample_unsaved !! "task" = Some tk →
      py_in_strs tk ["classification"; "multilabel_classification"] = true →
      (∀ self', unsaved_fit.2 ≠ Ok self')
      ∧ (RunEnd ∈ unsaved_fit.1 → unsaved_fit.2 = Raise TypeError).
Proof.
  apply (fit_without_save_path (calls := sample_calls None)
           sample_unsaved sample_input).
  - vm_compute. reflexivity.
  - vm_compute. reflexivity.
Defined.

Lemma fit_builds_from_updated_config_witness :
  ∃ d tr m0 m,
    DataHub_data (TrainCalls := sample_calls (Some 10%Z)) sample_input
      (self_save_path (sample_self "classification"))
      (config (sample_self "classification")) = inr d
    ∧ Trainer_new (self_save_path (sample_self "classification"))
        (config (sample_fitted "classification" (Some 10%Z))) = inr tr
    ∧ NNModel_new (TrainCalls := sample_calls (Some 10%Z)) d tr
        (config (sample_fitted "classification" (Some 10%Z))) = inr m0
    ∧ NNModel_run (TrainCalls := sample_calls (Some 10%Z)) m0 = inr m
    ∧ data (sample_fitted "classification" (Some 10%Z)) = Some d
    ∧ trainer (sample_fitted "classification" (Some 10%Z)) = Some tr
    ∧ model (sample_fitted "classification" (Some 10%Z)) = Some m
    ∧ config (sample_fitted "classification" (Some 10%Z)) !! "num_classes"
      = Some (num_classes d)
    ∧ yamlhandler (sample_fitted "classification" (Some 10%Z))
      = yamlhandler (sample_self "classification")
    ∧ self_save_path (sample_fitted "classification" (Some 10%Z))
      = self_save_path (sample_self "classification")
    ∧ ∀ dir, self_save_path (sample_self "classification") = Some dir →
        ∃ p, os_path_join (Some dir) "config.yaml" = Ok p
             ∧ WriteYaml p
                 (config (sample_fitted "classification" (Some 10%Z)))
               ∈ (sample_fit "classification" (Some 10%Z)).1.
Proof.
  apply (fit_builds_from_updated_config (calls := sample_calls (Some 10%Z))
           (sample_self "classification")
           (sample_fitted "classification" (Some 10%Z)) sample_input []).
  vm_compute. reflexivity.
Defined.

Lemma constructed_fit_raises_witness :
  (∃ w, TypeError = Collaborator w)
  ∨ (TypeError = KeyError "multiclass_cnt"
     ∧ task unsaved_args = PyStr "multiclass"
     ∧ unsaved_fit.1 = ([] ++ [DataHubBuilt])%list)
  ∨ (TypeError = TypeError ∧ save_path unsaved_args = None
     ∧ (task unsaved_args = PyStr "classification"
        ∨ task unsaved_args = PyStr "multilabel_classification")
     ∧ last unsaved_fit.1 = Some RunEnd).
Proof.
  apply (constructed_fit_raises (calls := sample_calls None)
           unsaved_args [] (MolTrain_init unsaved_args []).1
           sample_unsaved sample_input []).
  - vm_compute. reflexivity.
  - vm_compute. reflexivity.
Defined.

Lemma constructed_fit_keeps_arguments_witness :
  (∀ k v, (k, v) ∈ init_attrs (sample_args "classification") →
     k ≠ "target_cols" →
     config (sample_fitted "classification" (Some 10%Z)) !! k = Some v)
  ∧ config (sample_fitted "classification" (Some 10%Z)) !! "split_method"
    = Some (PyStr (fmt (kfold (sample_args "classification")) ++ "fold_"
                   ++ fmt (split (sample_args "classification"))))
  ∧ self_save_path (sample_fitted "classification" (Some 10%Z))
    = save_path (sample_args "classification").
Proof.
  apply (constructed_fit_keeps_arguments (calls := sample_calls (Some 10%Z))
           (sample_args "classification") []
           (sample_constructed "classification").1
           (sample_self "classification")
           (sample_fitted "classification" (Some 10%Z)) sample_input []
           (sample_fit "classification" (Some 10%Z)).1).
  - vm_compute. reflexivity.
  - vm_compute. reflexivity.
Defined.

End TrainMore.
